(** * Sim30L: the physics-based continuation of N97CX to runway 30L

    A shallow embedding of [generate_sim30L_v2.py] and the properties of its
    forward simulation loop.

    Numbers.  The script computes with Python floats.  They are modelled as
    exact rationals ([Q]): every constant of the script is a decimal and is
    kept as written, comparisons and arithmetic are the exact ones, and
    rounding is not modelled.  The functions of Python's [math] module are
    an interface ([Math]) the development is parametric in; nothing is
    assumed about them.

    Exceptions.  A float division by zero raises [ZeroDivisionError] and
    reading a name that was never assigned raises [NameError]; both are kept
    as explicit outcomes. *)

From Stdlib Require Import QArith Qabs Qminmax Qround Lqa.
From Stdlib Require Import ZArith Lia List Bool Sorted.
Import ListNotations.

Open Scope Q_scope.

(** ** Python numerics on rationals *)

Module Py.

(** [x < y], [x <= y] as conditions of an [if] or a [while]. *)
Definition ltb (x y : Q) : bool := if Qlt_le_dec x y then true else false.
Definition leb (x y : Q) : bool := if Qlt_le_dec y x then false else true.
Definition gtb (x y : Q) : bool := ltb y x.
Definition geb (x y : Q) : bool := leb y x.

(** [min(a, b)] is [b] when [b < a] and [a] otherwise; [max(a, b)] is [b]
    when [b > a] and [a] otherwise. *)
Definition min (a b : Q) : Q := if ltb b a then b else a.
Definition max (a b : Q) : Q := if gtb b a then b else a.

Definition abs (x : Q) : Q := Qabs x.

(** [x % m] for floats and a positive [m]: the remainder has the sign of
    the divisor. *)
Definition fmod (x m : Q) : Q := x - m * inject_Z (Qfloor (x / m)).

(** A [while] loop over one numeric variable, with a bound on the number of
    evaluations of its condition.  [None]: the bound was reached. *)
Fixpoint while (cond : Q -> bool) (body : Q -> Q) (fuel : nat) (x : Q)
  : option Q :=
  match fuel with
  | O => None
  | S fuel' => if cond x then while cond body fuel' (body x) else Some x
  end.

(** Exceptions the script can raise inside the simulation. *)
Inductive exn : Set := ZeroDivisionError | NameError.

(** Float division: a zero divisor raises. *)
Definition div (x y : Q) : exn + Q :=
  if Qeq_dec y 0 then inl ZeroDivisionError else inr (x / y).

End Py.

Notation "x <? y" := (Py.ltb x y) (at level 70, no associativity) : Q_scope.
Notation "x <=? y" := (Py.leb x y) (at level 70, no associativity) : Q_scope.
Notation "x >? y" := (Py.gtb x y) (at level 70, no associativity) : Q_scope.
Notation "x >=? y" := (Py.geb x y) (at level 70, no associativity) : Q_scope.

(** The functions of the [math] module the script calls. *)
Class Math : Type := {
  sin : Q -> Q;
  cos : Q -> Q;
  tan : Q -> Q;
  asin : Q -> Q;
  atan : Q -> Q;
  atan2 : Q -> Q -> Q;
  sqrt : Q -> Q
}.

(** [math.pi] is the double nearest to pi. *)
Definition math_pi : Q := 3.141592653589793.

(** ** Configuration parameters *)

Definition TARGET_SPEED_KTS : Q := 100.0.
Definition TARGET_ALTITUDE_FT : Q := 2213.0.
Definition DESCENT_RATE_FPM : Q := -800.0.

Definition RWY_30L_THRESHOLD : Q * Q := (36.205081, -115.190543).
Definition RWY_30L_HEADING : Q := 314.5.

Record Point : Set := { p_lon : Q; p_lat : Q; p_alt : Q }.

(** A dict is true when it is not empty: [Some] for the configured point,
    [None] for a configuration without one. *)
Definition COLLISION_POINT : option Point :=
  Some {| p_lon := -115.1843952238; p_lat := 36.2028430295;
          p_alt := 2270.248736 |}.

(** ** Constants *)

Definition DEG_TO_RAD : Q := math_pi / 180.
Definition RAD_TO_DEG : Q := 180 / math_pi.
Definition METERS_PER_DEG_LAT : Q := 110540.
Definition FEET_PER_METER : Q := 3.28084.
Definition KNOTS_TO_FPS : Q := 1.68781.
Definition G_FPS2 : Q := 32.174.

(** ** Utility functions *)

(** The number of condition evaluations that the two loops of
    [normalize_heading] and of [signed_angle_diff] cannot exceed on [x]. *)
Definition turns (x : Q) : nat := S (S (Z.to_nat (Qceiling (Qabs x / 360)))).

(** [normalize_heading]: the two loops, bounded. *)
Definition normalize_heading_loops (fuel : nat) (hdg : Q) : option Q :=
  match Py.while (fun h => h <? 0) (fun h => h + 360) fuel hdg with
  | Some hdg1 => Py.while (fun h => h >=? 360) (fun h => h - 360) fuel hdg1
  | None => None
  end.

Definition normalize_heading (hdg : Q) : Q :=
  match normalize_heading_loops (turns hdg) hdg with
  | Some h => h
  | None => hdg
  end.

(** [signed_angle_diff]: the two loops, bounded. *)
Definition signed_angle_diff_loops (fuel : nat) (from_hdg to_hdg : Q)
  : option Q :=
  let diff := to_hdg - from_hdg in
  match Py.while (fun d => d >? 180) (fun d => d - 360) fuel diff with
  | Some diff1 =>
      Py.while (fun d => d <? -180) (fun d => d + 360) fuel diff1
  | None => None
  end.

Definition signed_angle_diff (from_hdg to_hdg : Q) : Q :=
  match signed_angle_diff_loops (turns (to_hdg - from_hdg)) from_hdg to_hdg with
  | Some d => d
  | None => to_hdg - from_hdg
  end.


Section Geodesy.

Context {M : Math}.

(** Distance in feet between two lat/lon points. *)
Definition haversine_distance_ft (lat1 lon1 lat2 lon2 : Q) : Q :=
  let R := 6371000 in
  let phi1 := lat1 * DEG_TO_RAD in
  let phi2 := lat2 * DEG_TO_RAD in
  let dphi := (lat2 - lat1) * DEG_TO_RAD in
  let dlambda := (lon2 - lon1) * DEG_TO_RAD in
  let a := sin (dphi / 2) ^ 2 + cos phi1 * cos phi2 * sin (dlambda / 2) ^ 2 in
  let dist_m := R * 2 * atan2 (sqrt a) (sqrt (1 - a)) in
  dist_m * FEET_PER_METER.

(** Bearing from point 1 to point 2 in degrees (0-360). *)
Definition compute_bearing (lat1 lon1 lat2 lon2 : Q) : Q :=
  let phi1 := lat1 * DEG_TO_RAD in
  let phi2 := lat2 * DEG_TO_RAD in
  let dlambda := (lon2 - lon1) * DEG_TO_RAD in
  let y := sin dlambda * cos phi2 in
  let x := cos phi1 * sin phi2 - sin phi1 * cos phi2 * cos dlambda in
  Py.fmod (atan2 y x * RAD_TO_DEG + 360) 360.

(** Destination point given start, bearing, and distance in feet. *)
Definition destination_point (lat lon bearing_deg distance_ft : Q) : Q * Q :=
  let R := 6371000 * FEET_PER_METER in
  let phi1 := lat * DEG_TO_RAD in
  let lambda1 := lon * DEG_TO_RAD in
  let theta := bearing_deg * DEG_TO_RAD in
  let d := distance_ft / R in
  let phi2 := asin (sin phi1 * cos d + cos phi1 * sin d * cos theta) in
  let lambda2 :=
    lambda1 + atan2 (sin theta * sin d * cos phi1)
                    (cos d - sin phi1 * sin phi2) in
  (phi2 * RAD_TO_DEG, lambda2 * RAD_TO_DEG).

(** Bank angle (degrees, negative = left) for a speed and a turn rate:
    tan(bank) = V * omega / g. *)
Definition bank_angle_from_turn (speed_kts turn_rate_dps : Q) : Q :=
  if Py.abs turn_rate_dps <? 0.01 then 0.0
  else
    let V_fps := speed_kts * KNOTS_TO_FPS in
    let omega_rad := turn_rate_dps * DEG_TO_RAD in
    let bank_rad := atan (V_fps * omega_rad / G_FPS2) in
    bank_rad * RAD_TO_DEG.

(** Turn rate (deg/sec) for a speed and a radius; the radius is floored at
    100 ft, so the division cannot raise. *)
Definition turn_rate_from_radius (speed_kts radius_ft : Q) : Q :=
  let radius_ft := if radius_ft <? 100 then 100 else radius_ft in
  let V_fps := speed_kts * KNOTS_TO_FPS in
  let omega_rad := V_fps / radius_ft in
  omega_rad * RAD_TO_DEG.

(** Lat/lon to XY feet with the origin at the given point. *)
Definition latlon_to_xy_ft (lat lon origin_lat origin_lon : Q) : Q * Q :=
  let dlat := lat - origin_lat in
  let dlon := lon - origin_lon in
  let y_ft := dlat * METERS_PER_DEG_LAT * FEET_PER_METER in
  let x_ft :=
    dlon * METERS_PER_DEG_LAT * cos (origin_lat * DEG_TO_RAD) * FEET_PER_METER in
  (x_ft, y_ft).

End Geodesy.


(** ** Recorded data *)

(** A row of [N97CX_xyz_original.csv].  The time of a row is kept as the
    seconds of the day [parse_time_to_seconds] reads from it. *)
Record TrackPoint : Set := {
  pt_time : Q;
  pt_lon : Q;
  pt_lat : Q;
  pt_alt : Q
}.

(** [SPLIT_TIME] = 19:02:51.5, in seconds of the day. *)
Definition SPLIT_TIME : Q := 19 * 3600 + 2 * 60 + 51.5.

(** A row of [N97CX_roll_original.csv] as [original_roll_data] keeps it. *)
Record RollSample : Set := {
  secs : Q;
  roll : Q
}.

(** The scan of [interpolate_roll]: the last sample at or before the target
    and the first one after it; the loop is left at the first sample after
    the target. *)
Fixpoint roll_scan (data : list RollSample) (target_secs : Q)
    (prev next_r : option RollSample)
  : option RollSample * option RollSample :=
  match data with
  | [] => (prev, next_r)
  | r :: rest =>
      if secs r <=? target_secs then roll_scan rest target_secs (Some r) next_r
      else if (secs r >? target_secs)
              && (match next_r with None => true | Some _ => false end)
      then (prev, Some r)
      else roll_scan rest target_secs prev next_r
  end.

(** Roll value for a given time; [None] when there is no roll data. *)
Definition interpolate_roll (original_roll_data : list RollSample)
    (target_secs : Q) : option Q :=
  match original_roll_data with
  | [] => None
  | first :: _ =>
      match roll_scan original_roll_data target_secs None None with
      | (None, _) => Some (roll first)
      | (Some prev, None) => Some (roll prev)
      | (Some prev, Some next_r) =>
          if Qeq_dec (secs prev) target_secs then Some (roll prev)
          else
            let t := (target_secs - secs prev) / (secs next_r - secs prev) in
            Some (roll prev + t * (roll next_r - roll prev))
      end
  end.

(** ** State at the split point *)

(** What the script reads before the simulation: the rows of the track
    before the split index, the rows at [split_idx - 2], [split_idx - 1] and
    [split_idx], and the rows of the roll file in file order ([None] when
    the file cannot be read). *)
Record Recorded : Set := {
  n97cx_before_split : list TrackPoint;
  pt_m2 : TrackPoint;
  pt_m1 : TrackPoint;
  pt_split : TrackPoint;
  roll_file : option (list RollSample)
}.

Record Setup : Set := {
  heading_at_split : Q;
  turn_rate_at_split : Q;
  speed_at_split : Q;
  bank_at_split : Q;
  actual_descent_fpm : Q;
  original_bank_at_split : Q
}.

Notation "x <- e ;; k" :=
  (match e with inl err => inl err | inr x => k end)
  (at level 61, e at next level, right associativity).

(** The bank at the split point read from the roll file, when it has a row
    at or before the split time; the bank computed from the turn rate
    otherwise. *)
Definition bank_from_roll_file (rows : list RollSample)
    (split_secs bank_at_split : Q) : Q :=
  match roll_scan rows split_secs None None with
  | (Some prev_roll, Some next_roll) =>
      if Qeq_dec (secs next_roll) (secs prev_roll) then roll prev_roll
      else
        let t := (split_secs - secs prev_roll)
                 / (secs next_roll - secs prev_roll) in
        roll prev_roll + t * (roll next_roll - roll prev_roll)
  | (Some prev_roll, None) => roll prev_roll
  | (None, _) => bank_at_split
  end.

Section Analysis.

Context {M : Math}.

(** The descent rate of the profile, from the altitude to lose and the
    time to the threshold at the average of the current and the target
    speed. *)
Definition descent_profile (alt_split dist_to_rwy speed_at_split : Q)
  : Py.exn + Q :=
  let alt_to_lose := alt_split - TARGET_ALTITUDE_FT in
  let avg_speed_fps :=
    ((speed_at_split + TARGET_SPEED_KTS) / 2) * KNOTS_TO_FPS in
  time_to_threshold <- Py.div dist_to_rwy avg_speed_fps ;;
  let computed_descent_fpm :=
    if time_to_threshold >? 0 then (alt_to_lose / time_to_threshold) * 60
    else 600 in
  inr (- computed_descent_fpm).

Definition analyse (rec : Recorded) : Py.exn + Setup :=
  let pt_m2 := pt_m2 rec in
  let pt_m1 := pt_m1 rec in
  let pt_split := pt_split rec in
  let heading_at_split :=
    compute_bearing (pt_lat pt_m1) (pt_lon pt_m1)
                    (pt_lat pt_split) (pt_lon pt_split) in
  let t_m1 := pt_time pt_m1 in
  let t_split := pt_time pt_split in
  let dt := t_split - t_m1 in
  let hdg_m1 :=
    compute_bearing (pt_lat pt_m2) (pt_lon pt_m2)
                    (pt_lat pt_m1) (pt_lon pt_m1) in
  let hdg_change := signed_angle_diff hdg_m1 heading_at_split in
  let turn_rate_at_split := if dt >? 0 then hdg_change / dt else -5.0 in
  let dist_ft :=
    haversine_distance_ft (pt_lat pt_m1) (pt_lon pt_m1)
                          (pt_lat pt_split) (pt_lon pt_split) in
  let speed_fps := if dt >? 0 then dist_ft / dt else 113 * KNOTS_TO_FPS in
  let speed_at_split := speed_fps / KNOTS_TO_FPS in
  let bank_at_split :=
    bank_angle_from_turn speed_at_split turn_rate_at_split in
  let dist_to_rwy :=
    haversine_distance_ft (pt_lat pt_split) (pt_lon pt_split)
                          (fst RWY_30L_THRESHOLD) (snd RWY_30L_THRESHOLD) in
  actual_descent_fpm <-
    descent_profile (pt_alt pt_split) dist_to_rwy speed_at_split ;;
  let original_bank_at_split :=
    match roll_file rec with
    | Some rows => bank_from_roll_file rows (pt_time pt_split) bank_at_split
    | None => bank_at_split
    end in
  inr {| heading_at_split := heading_at_split;
         turn_rate_at_split := turn_rate_at_split;
         speed_at_split := speed_at_split;
         bank_at_split := bank_at_split;
         actual_descent_fpm := actual_descent_fpm;
         original_bank_at_split := original_bank_at_split |}.

End Analysis.

(** ** Simulation loop *)

(** Simulation parameters. *)
Definition dt : Q := 0.5.
Definition max_iterations : nat := 200.

(** A row of [extended_data]. *)
Record Sample : Set := {
  e_time : Q;
  e_lon : Q;
  e_lat : Q;
  e_alt : Q;
  x_ft : Q;
  y_ft : Q;
  gs_kts : Q;
  e_heading : Q;
  bank_deg : Q;
  e_turn_rate : Q;
  e_phase : Z
}.

(** Where the script is: in the loop, out of it by the [break], out of it
    because [iteration < max_iterations] failed, or aborted by an
    exception. *)
Inductive Status : Set :=
| Running
| Stopped
| Exhausted
| Raised (e : Py.exn).

(** The variables the loop reads and writes.  [bank] is not bound before the
    first iteration assigns it. *)
Record State : Set := {
  status : Status;
  iteration : nat;
  lat : Q;
  lon : Q;
  alt : Q;
  heading : Q;
  speed : Q;
  turn_rate : Q;
  bank : option Q;
  rollout_started : bool;
  phase : Z;
  current_time : Q;
  sim_data : list TrackPoint;
  extended_data : list Sample
}.

Definition set_status (st : Status) (s : State) : State :=
  {| status := st; iteration := iteration s; lat := lat s; lon := lon s;
     alt := alt s; heading := heading s; speed := speed s;
     turn_rate := turn_rate s; bank := bank s;
     rollout_started := rollout_started s; phase := phase s;
     current_time := current_time s; sim_data := sim_data s;
     extended_data := extended_data s |}.

Definition next_iteration (s : State) : State :=
  {| status := status s; iteration := S (iteration s); lat := lat s;
     lon := lon s; alt := alt s; heading := heading s; speed := speed s;
     turn_rate := turn_rate s; bank := bank s;
     rollout_started := rollout_started s; phase := phase s;
     current_time := current_time s; sim_data := sim_data s;
     extended_data := extended_data s |}.

(** Runway-relative position: (along_track, cross_track), from the planar
    offsets [dx], [dy] to the threshold. *)
Section RunwayFrame.

Context {M : Math}.

Definition runway_dx (lon : Q) : Q :=
  (lon - snd RWY_30L_THRESHOLD) * METERS_PER_DEG_LAT
  * cos (fst RWY_30L_THRESHOLD * DEG_TO_RAD) * FEET_PER_METER.

Definition runway_dy (lat : Q) : Q :=
  (lat - fst RWY_30L_THRESHOLD) * METERS_PER_DEG_LAT * FEET_PER_METER.

Definition along_track (lat lon : Q) : Q :=
  let dx := runway_dx lon in
  let dy := runway_dy lat in
  let rwy_hdg_rad := RWY_30L_HEADING * DEG_TO_RAD in
  - dx * sin rwy_hdg_rad - dy * cos rwy_hdg_rad.

Definition cross_track (lat lon : Q) : Q :=
  let dx := runway_dx lon in
  let dy := runway_dy lat in
  let rwy_hdg_rad := RWY_30L_HEADING * DEG_TO_RAD in
  dx * cos rwy_hdg_rad - dy * sin rwy_hdg_rad.

(** The test of the [break]: at the 1000 ft marker, or on the centerline
    and on the runway heading. *)
Definition stop_condition (lat lon heading : Q) : bool :=
  let along_track := along_track lat lon in
  let stop_cross_track := cross_track lat lon in
  let hdg_error_to_rwy :=
    Py.abs (signed_angle_diff heading RWY_30L_HEADING) in
  let on_centerline := Py.abs stop_cross_track <? 50 in
  let on_heading := hdg_error_to_rwy <? 5 in
  let at_1000ft_marker := along_track <? -1000 in
  at_1000ft_marker || (on_centerline && on_heading).

End RunwayFrame.

(** *** The bank controller *)

(** The weight and the gain of the heading correction, by distance to the
    centerline. *)
Definition heading_blend (cross_track_abs : Q) : Q * Q :=
  if cross_track_abs <? 100 then (0.9, 1.0)
  else if cross_track_abs <? 300 then (0.7, 0.8)
  else (0.4, 0.6).

(** The target bank once rollout has begun. *)
Definition rollout_target_bank (cross_track hdg_to_runway : Q) : Q :=
  if hdg_to_runway >? 20 then Py.min 8 (hdg_to_runway * 0.4)
  else
    let cross_track_abs := Py.abs cross_track in
    let '(hdg_weight, hdg_gain) := heading_blend cross_track_abs in
    let intercept_bank := - cross_track / 50.0 in
    let intercept_bank := Py.max (-12) (Py.min 12 intercept_bank) in
    let hdg_correction := hdg_to_runway * hdg_gain in
    let hdg_correction := Py.max (-18) (Py.min 18 hdg_correction) in
    let target_bank :=
      intercept_bank * (1 - hdg_weight) + hdg_correction * hdg_weight in
    Py.max (-20) (Py.min 20 target_bank).

(** The largest change of bank in one step. *)
Definition max_bank_change (rollout_started : bool) (hdg_to_runway : Q) : Q :=
  if rollout_started then
    if hdg_to_runway >? 20 then 8.0 * dt else 5.0 * dt
  else 3.0 * dt.

(** The bank moved toward the target, by at most [max_bank_change]. *)
Definition limit_bank (bank target_bank max_bank_change : Q) : Q :=
  let bank_diff := target_bank - bank in
  if Py.abs bank_diff >? max_bank_change
  then bank + max_bank_change * (if bank_diff >? 0 then 1 else -1)
  else target_bank.

(** What the controller leaves: the target bank it computed (none in the
    first iteration), the bank, and the rollout flag. *)
Record Control : Set := {
  c_target_bank : option Q;
  c_bank : Q;
  c_rollout_started : bool
}.

Section Controller.

Variable original_bank_at_split : Q.

(** The target bank of an iteration after the first, with the rollout
    flag it leaves. *)
Definition target_bank (cross_track heading hdg_to_runway : Q)
    (rollout_started : bool) : Q * bool :=
  let intercept_heading := RWY_30L_HEADING - 5 in
  let hdg_past_intercept := heading <? intercept_heading in
  if (cross_track >? 200) && negb hdg_past_intercept && negb rollout_started
  then (original_bank_at_split, rollout_started)
  else (rollout_target_bank cross_track hdg_to_runway, true).

Definition controller (iteration : nat)
    (cross_track heading hdg_to_runway : Q)
    (bank : option Q) (rollout_started : bool) : Py.exn + Control :=
  if (iteration =? 1)%nat then
    inr {| c_target_bank := None;
           c_bank := original_bank_at_split;
           c_rollout_started := rollout_started |}
  else
    let '(target_bank, rollout_started) :=
      target_bank cross_track heading hdg_to_runway rollout_started in
    let max_bank_change := max_bank_change rollout_started hdg_to_runway in
    match bank with
    | None => inl Py.NameError
    | Some bank =>
        inr {| c_target_bank := Some target_bank;
               c_bank := limit_bank bank target_bank max_bank_change;
               c_rollout_started := rollout_started |}
    end.

End Controller.

(** *** Turn rate, speed and altitude *)

Section TurnRate.

Context {M : Math}.

(** Turn rate from bank: omega = g * tan(bank) / V, and 0 within half a
    degree of wings level.  [V_fps] is 0 when the speed is. *)
Definition turn_rate_from_bank (speed bank : Q) : Py.exn + Q :=
  let V_fps := speed * KNOTS_TO_FPS in
  if Py.abs bank >? 0.5 then
    q <- Py.div (G_FPS2 * tan (bank * DEG_TO_RAD)) V_fps ;;
    inr (q * RAD_TO_DEG)
  else inr 0.0.

End TurnRate.

(** The time to the threshold at the current speed, in seconds.  It is
    computed under [speed_error > 0], where its divisor is not 0. *)
Definition time_to_threshold (speed dist_to_rwy : Q) : Q :=
  dist_to_rwy / (speed * KNOTS_TO_FPS).

(** Whether the deceleration applies: the tests that guard
    [speed -= decel_rate * dt]. *)
Definition decel_applies (speed dist_to_rwy : Q) : bool :=
  let speed_error := speed - TARGET_SPEED_KTS in
  if (speed_error >? 0) && (dist_to_rwy >? 100) then
    time_to_threshold speed dist_to_rwy >? 1
  else false.

(** The deceleration rate, in knots per second, where it applies. *)
Definition decel_rate (speed dist_to_rwy : Q) : Q :=
  let speed_error := speed - TARGET_SPEED_KTS in
  let decel_rate := speed_error / time_to_threshold speed dist_to_rwy in
  let decel_rate := Py.min decel_rate 2.0 in
  Py.max decel_rate 0.3.

(** The speed after the deceleration profile. *)
Definition decelerate (speed dist_to_rwy : Q) : Q :=
  let speed_error := speed - TARGET_SPEED_KTS in
  if (speed_error >? 0) && (dist_to_rwy >? 100) then
    let time_to_threshold := time_to_threshold speed dist_to_rwy in
    if time_to_threshold >? 1 then
      let decel_rate := speed_error / time_to_threshold in
      let decel_rate := Py.min decel_rate 2.0 in
      let decel_rate := Py.max decel_rate 0.3 in
      speed - decel_rate * dt
    else speed
  else speed.

(** The altitude after the descent profile. *)
Definition descend (actual_descent_fpm alt : Q) : Q :=
  let alt := alt + (actual_descent_fpm / 60) * dt in
  if alt <? TARGET_ALTITUDE_FT then TARGET_ALTITUDE_FT else alt.

(** *** One iteration *)

Section Simulation.

Context {M : Math}.
Variable setup : Setup.

(** The rest of an iteration once the bank and the turn rate are known:
    speed, altitude, heading, position, time, and the rows appended to
    [sim_data] and [extended_data]. *)
Definition advance (s : State) (c : Control) (turn_rate : Q) : State :=
  let dist_to_rwy :=
    haversine_distance_ft (lat s) (lon s)
                          (fst RWY_30L_THRESHOLD) (snd RWY_30L_THRESHOLD) in
  let bank := c_bank c in
  let speed := decelerate (speed s) dist_to_rwy in
  let alt := descend (actual_descent_fpm setup) (alt s) in
  let heading := normalize_heading (heading s + turn_rate * dt) in
  let dist_traveled_ft := speed * KNOTS_TO_FPS * dt in
  let '(lat, lon) :=
    destination_point (lat s) (lon s) heading dist_traveled_ft in
  let current_time := current_time s + dt in
  let '(x_ft, y_ft) :=
    latlon_to_xy_ft lat lon (fst RWY_30L_THRESHOLD)
                    (snd RWY_30L_THRESHOLD) in
  {| status := Running;
     iteration := iteration s;
     lat := lat; lon := lon; alt := alt;
     heading := heading; speed := speed;
     turn_rate := turn_rate;
     bank := Some bank;
     rollout_started := c_rollout_started c;
     phase := phase s;
     current_time := current_time;
     sim_data :=
       sim_data s ++
       [{| pt_time := current_time; pt_lon := lon;
           pt_lat := lat; pt_alt := alt |}];
     extended_data :=
       extended_data s ++
       [{| e_time := current_time; e_lon := lon; e_lat := lat;
           e_alt := alt; x_ft := x_ft; y_ft := y_ft;
           gs_kts := speed; e_heading := heading;
           bank_deg := bank; e_turn_rate := turn_rate;
           e_phase := phase s |}] |}.

(** The bank and the turn rate of an iteration: the controller, then the
    turn rate from the bank. *)
Definition control (s : State) : Py.exn + Control * Q :=
  let cross_track := cross_track (lat s) (lon s) in
  let hdg_to_runway := signed_angle_diff (heading s) RWY_30L_HEADING in
  c <- controller (original_bank_at_split setup) (iteration s)
                  cross_track (heading s) hdg_to_runway
                  (bank s) (rollout_started s) ;;
  turn_rate <- turn_rate_from_bank (speed s) (c_bank c) ;;
  inr (c, turn_rate).

(** The body of the loop, after [iteration += 1].  [bearing_to_rwy],
    [hdg_to_rwy] and [hdg_to_centerline] are computed and never read, and
    are left out.  An exception aborts the script; the state then keeps
    what the iteration began with. *)
Definition loop_body (s : State) : State :=
  if stop_condition (lat s) (lon s) (heading s) then set_status Stopped s
  else
    match control s with
    | inl e => set_status (Raised e) s
    | inr (c, turn_rate) => advance s c turn_rate
    end.

(** One turn of [while iteration < max_iterations]: the test, then
    [iteration += 1] and the body.  A script that is out of the loop stays
    where it is. *)
Definition step (s : State) : State :=
  match status s with
  | Running =>
      if (iteration s <? max_iterations)%nat
      then loop_body (next_iteration s)
      else set_status Exhausted s
  | _ => s
  end.

(** The script after [n] turns of the loop. *)
Fixpoint run (n : nat) (s : State) : State :=
  match n with
  | O => s
  | S n' => step (run n' s)
  end.

(** The state the loop starts from: the collision point when one is
    configured, the split point otherwise; the track so far is the rows
    before the split and the collision point. *)
Definition initial_state (rec : Recorded) : State :=
  let '(lat, lon, alt) :=
    match COLLISION_POINT with
    | Some c => (p_lat c, p_lon c, p_alt c)
    | None =>
        (pt_lat (pt_split rec), pt_lon (pt_split rec), pt_alt (pt_split rec))
    end in
  {| status := Running;
     iteration := 0;
     lat := lat; lon := lon; alt := alt;
     heading := heading_at_split setup;
     speed := speed_at_split setup;
     turn_rate := turn_rate_at_split setup;
     bank := None;
     rollout_started := false;
     phase := 1;
     current_time := SPLIT_TIME;
     sim_data :=
       n97cx_before_split rec ++
       match COLLISION_POINT with
       | Some c => [{| pt_time := SPLIT_TIME; pt_lon := p_lon c;
                       pt_lat := p_lat c; pt_alt := p_alt c |}]
       | None => []
       end;
     extended_data := [] |}.

(** The loop, run until it is left: after [max_iterations] turns the test
    of the [while] fails at the latest. *)
Definition simulation_loop (rec : Recorded) : State :=
  run (S max_iterations) (initial_state rec).

(** The turns of the loop as a relation between states. *)
Inductive transition (s : State) : State -> Prop :=
| loop_exhausted :
    status s = Running ->
    (max_iterations <= iteration s)%nat ->
    transition s (set_status Exhausted s)
| loop_break :
    status s = Running ->
    (iteration s < max_iterations)%nat ->
    stop_condition (lat s) (lon s) (heading s) = true ->
    transition s (set_status Stopped (next_iteration s))
| loop_raise (e : Py.exn) :
    status s = Running ->
    (iteration s < max_iterations)%nat ->
    stop_condition (lat s) (lon s) (heading s) = false ->
    control (next_iteration s) = inl e ->
    transition s (set_status (Raised e) (next_iteration s))
| loop_advance (c : Control) (turn_rate : Q) :
    status s = Running ->
    (iteration s < max_iterations)%nat ->
    stop_condition (lat s) (lon s) (heading s) = false ->
    control (next_iteration s) = inr (c, turn_rate) ->
    transition s (advance (next_iteration s) c turn_rate)
| loop_left :
    status s <> Running ->
    transition s s.

End Simulation.

(** The script up to the end of the loop. *)
Definition simulate {M : Math} (rec : Recorded) : Py.exn + State :=
  setup <- analyse rec ;;
  inr (simulation_loop setup rec).

(** ** Output files *)

(** *** Roll data *)

(** The recorded part of [sim_data]: the slice
    [sim_data[:len(sim_data) - len(extended_data)]]. *)
Definition recorded_rows (sim_data : list TrackPoint)
    (extended_data : list Sample) : list TrackPoint :=
  firstn (length sim_data - length extended_data) sim_data.

(** The rows of [N97CX_roll.csv], as (time, roll): the recorded rows that
    [interpolate_roll] has a value for, then the simulated bank angles. *)
Definition roll_output (original_roll_data : list RollSample)
    (sim_data : list TrackPoint) (extended_data : list Sample)
  : list (Q * Q) :=
  flat_map
    (fun pt =>
       match interpolate_roll original_roll_data (pt_time pt) with
       | Some roll_val => [(pt_time pt, roll_val)]
       | None => []
       end)
    (recorded_rows sim_data extended_data)
  ++ map (fun pt => (e_time pt, bank_deg pt)) extended_data.

(** *** Groundspeed data *)

Section Groundspeed.

Context {M : Math}.

(** The loop over [sim_data] after its first row: a row whose time is not
    after the previous row's gives no speed, and becomes the previous row
    all the same. *)
Fixpoint gs_raw_from (prev_pt : TrackPoint) (rows : list TrackPoint)
  : list (Q * Q) :=
  match rows with
  | [] => []
  | pt :: rest =>
      let dt := pt_time pt - pt_time prev_pt in
      if dt <=? 0 then gs_raw_from pt rest
      else
        let dist_ft :=
          haversine_distance_ft (pt_lat prev_pt) (pt_lon prev_pt)
                                (pt_lat pt) (pt_lon pt) in
        let gs_fps := dist_ft / dt in
        let gs_kts := gs_fps / KNOTS_TO_FPS in
        (pt_time pt, gs_kts) :: gs_raw_from pt rest
  end.

(** Groundspeed from consecutive positions, as (time, knots). *)
Definition gs_raw (sim_data : list TrackPoint) : list (Q * Q) :=
  match sim_data with
  | [] => []
  | pt :: rest => gs_raw_from pt rest
  end.

End Groundspeed.

(** [gs_raw[k][1]]; [None] is an [IndexError]. *)
Definition gs_at (gs_raw : list (Q * Q)) (k : nat) : option Q :=
  option_map snd (nth_error gs_raw k).

(** The 3-point moving average at row [i]: 2 points at both ends, the value
    itself when it is alone. *)
Definition smoothed (gs_raw : list (Q * Q)) (i : nat) (gs : Q) : option Q :=
  if (i =? 0)%nat then
    if (1 <? length gs_raw)%nat then
      match gs_at gs_raw 0, gs_at gs_raw 1 with
      | Some a, Some b => Some ((a + b) / 2)
      | _, _ => None
      end
    else Some gs
  else if (i =? length gs_raw - 1)%nat then
    match gs_at gs_raw (i - 1), gs_at gs_raw i with
    | Some a, Some b => Some ((a + b) / 2)
    | _, _ => None
    end
  else
    match gs_at gs_raw (i - 1), gs_at gs_raw i, gs_at gs_raw (i + 1) with
    | Some a, Some b, Some c => Some ((a + b + c) / 3)
    | _, _, _ => None
    end.

(** [for i, (time_str, gs) in enumerate(gs_raw)], from row [i] on. *)
Fixpoint gs_output_from (gs_raw : list (Q * Q)) (i : nat)
    (rows : list (Q * Q)) : option (list (Q * Q)) :=
  match rows with
  | [] => Some []
  | (time_str, gs) :: rest =>
      match smoothed gs_raw i gs, gs_output_from gs_raw (S i) rest with
      | Some v, Some out => Some ((time_str, v) :: out)
      | _, _ => None
      end
  end.

(** The rows of [N97CX_gs.csv]. *)
Definition gs_output (gs_raw : list (Q * Q)) : option (list (Q * Q)) :=
  gs_output_from gs_raw 0 gs_raw.

(** *** Extended data *)

(** The rows of [N97CX_extended.csv]: the recorded rows with their XY
    position and zeros, then the simulated rows. *)
Definition all_extended {M : Math} (sim_data : list TrackPoint)
    (extended_data : list Sample) : list Sample :=
  map (fun pt =>
         let '(x_ft, y_ft) :=
           latlon_to_xy_ft (pt_lat pt) (pt_lon pt)
                           (fst RWY_30L_THRESHOLD) (snd RWY_30L_THRESHOLD) in
         {| e_time := pt_time pt; e_lon := pt_lon pt; e_lat := pt_lat pt;
            e_alt := pt_alt pt; x_ft := x_ft; y_ft := y_ft;
            gs_kts := 0; e_heading := 0; bank_deg := 0; e_turn_rate := 0;
            e_phase := 0 |})
      (recorded_rows sim_data extended_data)
  ++ extended_data.

(** ** A rational implementation of [Math]

    Enough of [math] to run the script on examples: Taylor sums after
    argument reduction, rounded down to 18 decimals at each step, and the
    integer square root of the argument scaled by 10^30.  The results are
    within about 1e-12 of the real functions; no property depends on that. *)

Definition rnd (x : Q) : Q :=
  Qmake (Qfloor (x * 1000000000000000000)) 1000000000000000000.

(** [1 - x2/(j(j+1)) (1 - x2/((j+2)(j+3)) (1 - ...))], [n] factors deep. *)
Fixpoint alternating (x2 : Q) (n : nat) (j : Z) : Q :=
  match n with
  | O => 1
  | S n' =>
      rnd (1 - x2 / inject_Z (j * (j + 1)) * alternating x2 n' (j + 2))
  end.

(** The argument less whole turns, in [-pi, pi]. *)
Definition reduce (x : Q) : Q :=
  let two_pi := 2 * math_pi in
  rnd (x - two_pi * inject_Z (Qfloor (x / two_pi + 0.5))).

Definition rational_cos (x : Q) : Q :=
  let r := reduce x in alternating (r * r) 16 1.

Definition rational_sin (x : Q) : Q :=
  let r := reduce x in rnd (r * alternating (r * r) 16 2).

Definition rational_sqrt (x : Q) : Q :=
  if x <=? 0 then 0
  else
    Qmake (Z.sqrt (Qfloor (x * 1000000000000000000000000000000)))
          1000000000000000.

(** [1/j - x2 (1/(j+2) - x2 (...))], [n] terms deep. *)
Fixpoint gregory (x2 : Q) (n : nat) (j : Z) : Q :=
  match n with
  | O => 1 / inject_Z j
  | S n' => rnd (1 / inject_Z j - x2 * gregory x2 n' (j + 2))
  end.

(** [atan x = 2 atan (x / (1 + sqrt (1 + x^2)))], three times, for
    [|x| <= 1]. *)
Definition halve (x : Q) : Q := rnd (x / (1 + rational_sqrt (1 + x * x))).

Definition atan_unit (x : Q) : Q :=
  let h := halve (halve (halve x)) in
  rnd (8 * (h * gregory (h * h) 12 1)).

Definition rational_atan (x : Q) : Q :=
  if Qabs x <=? 1 then atan_unit x
  else if x >? 0 then math_pi / 2 - atan_unit (1 / x)
  else - (math_pi / 2) - atan_unit (1 / x).

Definition rational_atan2 (y x : Q) : Q :=
  if x >? 0 then rational_atan (y / x)
  else if x <? 0 then
    if y >=? 0 then rational_atan (y / x) + math_pi
    else rational_atan (y / x) - math_pi
  else if y >? 0 then math_pi / 2
  else if y <? 0 then - (math_pi / 2)
  else 0.

Definition rational_math : Math :=
  {| sin := rational_sin;
     cos := rational_cos;
     tan := fun x => rational_sin x / rational_cos x;
     asin := fun x => rational_atan2 x (rational_sqrt (1 - x * x));
     atan := rational_atan;
     atan2 := rational_atan2;
     sqrt := rational_sqrt |}.

(** Three rows of a track flown at about 113 kts in a left turn through
    heading 340, ending at the split time, and no roll file. *)
Definition sample_track : Recorded :=
  {| n97cx_before_split := [];
     pt_m2 := {| pt_time := 68569.5; pt_lon := -115.184010;
                 pt_lat := 36.201799; pt_alt := 2283 |};
     pt_m1 := {| pt_time := 68570.5; pt_lon := -115.184178;
                 pt_lat := 36.202306; pt_alt := 2276.5 |};
     pt_split := {| pt_time := 68571.5; pt_lon := -115.1844;
                    pt_lat := 36.2028; pt_alt := 2270 |};
     roll_file := Some [ {| secs := 68571; roll := -27.2 |};
                         {| secs := 68572; roll := -28 |} ] |}.

(** The state at the split point of [sample_track], as [analyse] computes
    it with [rational_math]: heading 340.07, turn rate -4.96 deg/s,
    113.58 kts, descent 309.7 fpm, and a bank of -27.6 from the roll file. *)
Definition sample_setup : Setup :=
  Eval vm_compute in
    match analyse (M := rational_math) sample_track with
    | inr setup => setup
    | inl _ =>
        {| heading_at_split := 0; turn_rate_at_split := 0;
           speed_at_split := 0; bank_at_split := 0;
           actual_descent_fpm := 0; original_bank_at_split := 0 |}
    end.

(** [sample_track] without its roll file, and its state at the split
    point. *)
Definition sample_track_without_roll : Recorded :=
  {| n97cx_before_split := n97cx_before_split sample_track;
     pt_m2 := pt_m2 sample_track;
     pt_m1 := pt_m1 sample_track;
     pt_split := pt_split sample_track;
     roll_file := None |}.

Definition sample_setup_without_roll : Setup :=
  Eval vm_compute in
    match analyse (M := rational_math) sample_track_without_roll with
    | inr setup => setup
    | inl _ =>
        {| heading_at_split := 0; turn_rate_at_split := 0;
           speed_at_split := 0; bank_at_split := 0;
           actual_descent_fpm := 0; original_bank_at_split := 0 |}
    end.

(** A state at the split point that is already past the intercept heading
    309.5, and one with no groundspeed (two recorded rows at one place). *)
Definition sample_setup_past_intercept : Setup :=
  {| heading_at_split := 300; turn_rate_at_split := -5;
     speed_at_split := 113; bank_at_split := -27.3;
     actual_descent_fpm := -310; original_bank_at_split := -27.6 |}.

Definition sample_setup_stationary : Setup :=
  {| heading_at_split := 340; turn_rate_at_split := -5;
     speed_at_split := 0; bank_at_split := 0;
     actual_descent_fpm := -310; original_bank_at_split := -27.6 |}.

(** [sample_track] with the row before the split at the place of the split
    row, one second earlier: a position repeated in the recording. *)
Definition stalled_track : Recorded :=
  {| n97cx_before_split := n97cx_before_split sample_track;
     pt_m2 := pt_m2 sample_track;
     pt_m1 := {| pt_time := 68570.5; pt_lon := -115.1844;
                 pt_lat := 36.2028; pt_alt := 2270 |};
     pt_split := pt_split sample_track;
     roll_file := roll_file sample_track |}.

(** ** Vocabulary of the specification *)

(** Time-sorted roll data, as [original_roll_data.sort] leaves it. *)
Definition time_sorted (data : list RollSample) : Prop :=
  Sorted (fun a b => secs a <= secs b) data.

(** [clamp(x, lo, hi)]. *)
Definition clamp (x lo hi : Q) : Q := Qmax lo (Qmin hi x).

(** The blend of the cross-track correction and the heading correction:
    [clamp(interceptBank * (1 - weight) + headingCorrection * weight, -20, 20)]
    with [interceptBank = clamp(-crossTrack / 50, -12, 12)] and
    [headingCorrection = clamp(headingError * gain, -18, 18)]. *)
Definition blended_bank (weight gain crossTrack headingError : Q) : Q :=
  let interceptBank := clamp (- crossTrack / 50) (-12) 12 in
  let headingCorrection := clamp (headingError * gain) (-18) 18 in
  clamp (interceptBank * (1 - weight) + headingCorrection * weight) (-20) 20.

(** The tiers as the specification words them: below 100 ft, from 100 ft to
    300 ft with both ends, above 300 ft. *)
Definition tiers_100_to_300_inclusive (crossTrack : Q) : Q * Q :=
  if Qlt_le_dec (Qabs crossTrack) 100 then (0.9, 1.0)
  else if Qlt_le_dec 300 (Qabs crossTrack) then (0.4, 0.6)
  else (0.7, 0.8).

(** The deceleration as the specification words it: active while
    [speed > targetSpeed] and [distanceToRunway > 100 ft], at the rate
    [(speed - targetSpeed) / timeToThreshold] clamped to [0.3, 2.0]. *)
Definition decelerate_while_far (speed distanceToRunway : Q) : Q :=
  if Qlt_le_dec TARGET_SPEED_KTS speed then
    if Qlt_le_dec 100 distanceToRunway then
      let timeToThreshold := distanceToRunway / (speed * KNOTS_TO_FPS) in
      let rate := clamp ((speed - TARGET_SPEED_KTS) / timeToThreshold) 0.3 2.0 in
      speed - rate * dt
    else speed
  else speed.

(** The stopping predicate: along-track below -1000 ft, or within 50 ft of
    the centerline and within 5 degrees of the runway heading at once. *)
Definition stop_predicate {M : Math} (lat lon heading : Q) : Prop :=
  along_track lat lon < -1000 \/
  (Qabs (cross_track lat lon) < 50 /\
   Qabs (signed_angle_diff heading RWY_30L_HEADING) < 5).

(** * Properties *)

(** ** Comparisons, [min], [max] and [abs] *)

Lemma ltb_true (x y : Q) : (x <? y) = true <-> x < y.
Proof.
  unfold Py.ltb. destruct (Qlt_le_dec x y) as [Hlt | Hle].
  - split; auto.
  - split; [discriminate | intros Hlt; exfalso; lra].
Qed.

Lemma ltb_false (x y : Q) : (x <? y) = false <-> y <= x.
Proof.
  unfold Py.ltb. destruct (Qlt_le_dec x y) as [Hlt | Hle].
  - split; [discriminate | intros Hle; exfalso; lra].
  - split; auto.
Qed.

Lemma leb_true (x y : Q) : (x <=? y) = true <-> x <= y.
Proof.
  unfold Py.leb. destruct (Qlt_le_dec y x) as [Hlt | Hle].
  - split; [discriminate | intros Hle; exfalso; lra].
  - split; auto.
Qed.

Lemma leb_false (x y : Q) : (x <=? y) = false <-> y < x.
Proof.
  unfold Py.leb. destruct (Qlt_le_dec y x) as [Hlt | Hle].
  - split; auto.
  - split; [discriminate | intros Hlt; exfalso; lra].
Qed.

(** Case analysis on every comparison of the goal, innermost first. *)
Ltac py_unfold :=
  unfold Py.min, Py.max, Py.abs, Py.gtb, Py.geb, Py.ltb, Py.leb in *.

Ltac py_cases :=
  py_unfold;
  repeat match goal with
         | |- context [Qlt_le_dec ?a ?b] =>
             lazymatch a with
             | context [Qlt_le_dec _ _] => fail
             | _ =>
                 lazymatch b with
                 | context [Qlt_le_dec _ _] => fail
                 | _ => destruct (Qlt_le_dec a b)
                 end
             end
         end.

(** [abs], split by the sign of its argument. *)
Lemma abs_cases (x : Q) :
  (0 <= x /\ Qabs x == x) \/ (x < 0 /\ Qabs x == - x).
Proof.
  destruct (Qlt_le_dec x 0) as [Hneg | Hpos].
  - right. split; [assumption |]. apply Qabs_neg. lra.
  - left. split; [assumption |]. apply Qabs_pos. assumption.
Qed.

(** [lra] after the inverses of constants have been evaluated. *)
Ltac inv_consts :=
  unfold Qdiv in *;
  repeat match goal with
         | |- context [Qinv (Qmake ?a ?b)] =>
             let r := eval cbv in (Qinv (Qmake a b)) in
             change (Qinv (Qmake a b)) with r
         | H : context [Qinv (Qmake ?a ?b)] |- _ =>
             let r := eval cbv in (Qinv (Qmake a b)) in
             change (Qinv (Qmake a b)) with r in H
         end.

Ltac consts :=
  unfold TARGET_SPEED_KTS, TARGET_ALTITUDE_FT, KNOTS_TO_FPS, dt in *.

Ltac qlra := consts; inv_consts; lra.

Lemma min_spec (a b : Q) :
  Py.min a b <= a /\ Py.min a b <= b /\ (Py.min a b = a \/ Py.min a b = b).
Proof. py_cases; repeat split; auto; lra. Qed.

Lemma max_spec (a b : Q) :
  a <= Py.max a b /\ b <= Py.max a b /\ (Py.max a b = a \/ Py.max a b = b).
Proof. py_cases; repeat split; auto; lra. Qed.

(** [max(lo, min(hi, x))] is the clamp of [x] to [lo, hi]. *)
Lemma clamp_spec (lo hi x : Q) :
  lo <= hi ->
  Py.max lo (Py.min hi x) == Qmax lo (Qmin hi x).
Proof.
  intros Hlohi.
  destruct (Q.min_spec hi x) as [[H1 E1] | [H1 E1]];
    destruct (Q.max_spec lo (Qmin hi x)) as [[H2 E2] | [H2 E2]];
    py_cases; lra.
Qed.

(** ** Bounded loops *)

Lemma while_more_fuel cond body (n m : nat) (x y : Q) :
  Py.while cond body n x = Some y -> (n <= m)%nat ->
  Py.while cond body m x = Some y.
Proof.
  revert m x. induction n as [| n IH]; intros m x Hrun Hle.
  - discriminate.
  - destruct m as [| m]; [lia |]. simpl in *.
    destruct (cond x); [apply IH; [assumption | lia] | assumption].
Qed.

Lemma inject_Z_S (n : nat) :
  inject_Z (Z.of_nat (S n)) == inject_Z (Z.of_nat n) + 1.
Proof.
  rewrite Nat2Z.inj_succ. unfold Z.succ. rewrite inject_Z_plus. reflexivity.
Qed.

(** [while x < c: x += 360]. *)
Lemma while_up_spec (c : Q) (n : nat) (x : Q) :
  c - 360 * inject_Z (Z.of_nat n) <= x ->
  exists y,
    Py.while (fun h => h <? c) (fun h => h + 360) (S n) x = Some y /\
    c <= y /\ (exists k : Z, y == x + 360 * inject_Z k) /\
    (x < c -> y < c + 360) /\ (c <= x -> y = x).
Proof.
  revert x. induction n as [| n IH]; intros x Hx.
  - exists x. cbn [Py.while]. change (inject_Z (Z.of_nat 0)) with 0 in Hx.
    destruct (x <? c) eqn:E.
    + apply ltb_true in E. exfalso; lra.
    + apply ltb_false in E. repeat split; auto; try (intros; lra).
      exists 0%Z. change (inject_Z 0) with 0. lra.
  - remember (S n) as m. cbn [Py.while]. subst m.
    destruct (x <? c) eqn:E.
    + apply ltb_true in E.
      destruct (IH (x + 360)) as (y & Hrun & Hy & (k & Hk) & Hlt & Hge).
      { rewrite inject_Z_S in Hx. lra. }
      exists y. repeat split; auto.
      * exists (k + 1)%Z. rewrite inject_Z_plus.
        change (inject_Z 1) with 1. lra.
      * intros _. destruct (Qlt_le_dec (x + 360) c) as [Hb | Hb].
        -- apply Hlt. assumption.
        -- rewrite (Hge Hb). lra.
      * intros Hc. exfalso; lra.
    + apply ltb_false in E. exists x. repeat split; auto; try (intros; lra).
      exists 0%Z. change (inject_Z 0) with 0. lra.
Qed.


(** [while x >= c: x -= 360]. *)
Lemma while_down_eq_spec (c : Q) (n : nat) (x : Q) :
  x < c + 360 * inject_Z (Z.of_nat n) ->
  exists y,
    Py.while (fun h => h >=? c) (fun h => h - 360) (S n) x = Some y /\
    y < c /\ (exists k : Z, y == x + 360 * inject_Z k) /\
    (c <= x -> c - 360 <= y) /\ (x < c -> y = x).
Proof.
  revert x. induction n as [| n IH]; intros x Hx.
  - exists x. cbn [Py.while]. change (inject_Z (Z.of_nat 0)) with 0 in Hx.
    unfold Py.geb. destruct (c <=? x) eqn:E.
    + apply leb_true in E. exfalso; lra.
    + apply leb_false in E. repeat split; auto; try (intros; lra).
      exists 0%Z. change (inject_Z 0) with 0. lra.
  - remember (S n) as m. cbn [Py.while]. subst m.
    unfold Py.geb at 1. destruct (c <=? x) eqn:E.
    + apply leb_true in E.
      destruct (IH (x - 360)) as (y & Hrun & Hy & (k & Hk) & Hlt & Hge).
      { rewrite inject_Z_S in Hx. lra. }
      exists y. repeat split; auto.
      * exists (k - 1)%Z. unfold Z.sub. rewrite inject_Z_plus, inject_Z_opp.
        change (inject_Z 1) with 1. lra.
      * intros _. destruct (Qlt_le_dec (x - 360) c) as [Hb | Hb].
        -- rewrite (Hge Hb). lra.
        -- apply Hlt. assumption.
      * intros Hc. exfalso; lra.
    + apply leb_false in E. exists x. repeat split; auto; try (intros; lra).
      exists 0%Z. change (inject_Z 0) with 0. lra.
Qed.

Lemma turns_bound (x : Q) :
  Qabs x <= 360 * inject_Z (Z.of_nat (Z.to_nat (Qceiling (Qabs x / 360)))).
Proof.
  set (q := Qabs x / 360).
  assert (Hq : q <= inject_Z (Z.of_nat (Z.to_nat (Qceiling q)))).
  { apply Qle_trans with (inject_Z (Qceiling q)).
    - apply Qle_ceiling.
    - rewrite <- Zle_Qle. lia. }
  unfold q in Hq at 1. qlra.
Qed.

(** ** [normalize_heading] and [signed_angle_diff] *)

(** Both loops of [normalize_heading] are left before the bound [turns] is
    reached, and more turns change nothing; the result is in [0, 360) and
    differs from the argument by whole turns. *)
Lemma normalize_heading_spec (hdg : Q) :
  (forall fuel, (turns hdg <= fuel)%nat ->
     normalize_heading_loops fuel hdg = Some (normalize_heading hdg)) /\
  0 <= normalize_heading hdg /\ normalize_heading hdg < 360 /\
  exists k : Z, normalize_heading hdg == hdg + 360 * inject_Z k.
Proof.
  pose proof (turns_bound hdg) as Hb.
  set (n := Z.to_nat (Qceiling (Qabs hdg / 360))) in *.
  assert (Hn : inject_Z (Z.of_nat (S n)) == inject_Z (Z.of_nat n) + 1)
    by apply inject_Z_S.
  destruct (abs_cases hdg) as [[Hs Ha] | [Hs Ha]].
  all: destruct (while_up_spec 0 (S n) hdg) as (y1 & R1 & Hy1 & (k1 & Hk1) & Hlt1 & Hge1);
    [lra |].
  all: destruct (while_down_eq_spec 360 (S n) y1) as (y2 & R2 & Hy2 & (k2 & Hk2) & Hge2 & Hlt2).
  1: rewrite (Hge1 Hs); lra.
  2: specialize (Hlt1 Hs); lra.
  all: assert (Hloops : forall fuel, (turns hdg <= fuel)%nat ->
                 normalize_heading_loops fuel hdg = Some y2).
  1, 3: intros fuel Hfuel; unfold normalize_heading_loops;
      rewrite (while_more_fuel _ _ _ fuel _ _ R1 Hfuel);
      apply (while_more_fuel _ _ _ fuel _ _ R2 Hfuel).
  all: assert (Hval : normalize_heading hdg = y2)
      by (unfold normalize_heading; rewrite (Hloops (turns hdg) (Nat.le_refl _));
          reflexivity).
  all: rewrite Hval; split; [assumption |].
  all: split; [destruct (Qlt_le_dec y1 360) as [Hc | Hc];
               [rewrite (Hlt2 Hc); assumption | specialize (Hge2 Hc); lra] |].
  all: split; [assumption |].
  all: exists (k1 + k2)%Z; rewrite inject_Z_plus; lra.
Qed.






(** ** [interpolate_roll] *)

Lemma last_cons {A : Type} (l : list A) (a d : A) :
  last (a :: l) d = last l a.
Proof.
  revert a d. induction l as [| b l IH]; intros a d.
  - reflexivity.
  - change (last (a :: b :: l) d) with (last (b :: l) d).
    rewrite (IH b d), (IH b a). reflexivity.
Qed.

Lemma time_sorted_le_last (first : RollSample) (rest : list RollSample) :
  time_sorted (first :: rest) ->
  Forall (fun r => secs r <= secs (last rest first)) (first :: rest).
Proof.
  revert first. induction rest as [| r rest IH]; intros first Hs.
  - constructor; [simpl; lra | constructor].
  - inversion Hs as [| ? ? Hs' Hhd]; subst.
    inversion Hhd as [| ? ? Hle]; subst.
    specialize (IH r Hs').
    rewrite last_cons. constructor; [| assumption].
    inversion IH; subst. lra.
Qed.

(** Over samples that are all at or before the target the scan keeps the
    last one and finds none after. *)
Lemma roll_scan_all_before (data : list RollSample) (target_secs : Q)
    (prev : RollSample) :
  Forall (fun r => secs r <= target_secs) data ->
  roll_scan data target_secs (Some prev) None = (Some (last data prev), None).
Proof.
  revert prev. induction data as [| r rest IH]; intros prev Hall.
  - reflexivity.
  - inversion Hall as [| ? ? Hr Hrest]; subst. cbn [roll_scan].
    apply leb_true in Hr. rewrite Hr. rewrite (IH r Hrest).
    rewrite last_cons. reflexivity.
Qed.

(** C8: on non-empty, time-sorted roll data, [interpolate_roll] at a time
    strictly before the first sample returns the first sample's roll, and at
    a time at or after the last sample returns the last sample's roll. *)
Theorem interpolate_roll_flat_ends (first : RollSample)
    (rest : list RollSample) (before after : Q) :
  time_sorted (first :: rest) ->
  before < secs first ->
  secs (last rest first) <= after ->
  interpolate_roll (first :: rest) before = Some (roll first) /\
  interpolate_roll (first :: rest) after = Some (roll (last rest first)).
Proof.
  intros Hsorted Hbefore Hafter. split.
  - unfold interpolate_roll. cbn [roll_scan].
    assert (E1 : (secs first <=? before) = false) by (apply leb_false; lra).
    assert (E2 : (secs first >? before) = true) by (apply ltb_true; lra).
    rewrite E1, E2. reflexivity.
  - pose proof (time_sorted_le_last first rest Hsorted) as Hall.
    assert (Hall' : Forall (fun r => secs r <= after) (first :: rest)).
    { eapply Forall_impl; [| exact Hall]. cbv beta. intros r Hr. lra. }
    inversion Hall' as [| ? ? Hfirst Hrest]; subst.
    unfold interpolate_roll. cbn [roll_scan].
    apply leb_true in Hfirst. rewrite Hfirst.
    rewrite (roll_scan_all_before rest after first Hrest). reflexivity.
Qed.

Lemma interpolate_roll_flat_ends_witness :
  let data := [ {| secs := 10; roll := -5 |}; {| secs := 11; roll := -7.5 |};
                {| secs := 11; roll := -8 |} ] in
  interpolate_roll data 9.5 = Some (-5) /\
  interpolate_roll data 11 = Some (-8).
Proof.
  apply (interpolate_roll_flat_ends
           {| secs := 10; roll := -5 |}
           [ {| secs := 11; roll := -7.5 |}; {| secs := 11; roll := -8 |} ]
           9.5 11).
  - repeat constructor; simpl; lra.
  - simpl; lra.
  - simpl; lra.
Defined.

(** ** The bank controller *)

Lemma clamp_code (lo hi x : Q) :
  lo <= hi -> Py.max lo (Py.min hi x) == clamp x lo hi.
Proof. intros H. unfold clamp. apply clamp_spec. assumption. Qed.

Lemma rollout_target_bank_blend (weight gain cross_track hdg_to_runway : Q) :
  hdg_to_runway <= 20 ->
  heading_blend (Py.abs cross_track) = (weight, gain) ->
  rollout_target_bank cross_track hdg_to_runway
  == blended_bank weight gain cross_track hdg_to_runway.
Proof.
  intros Hhdg Hblend. unfold rollout_target_bank, blended_bank.
  assert (E : (hdg_to_runway >? 20) = false) by (apply ltb_false; assumption).
  rewrite E, Hblend.
  rewrite (clamp_code (-20) 20) by lra. unfold clamp at 1 4.
  rewrite (clamp_code (-12) 12) by lra.
  rewrite (clamp_code (-18) 18) by lra.
  assert (E50 : 50.0 == 50) by reflexivity.
  unfold clamp. rewrite E50. reflexivity.
Qed.

(** After the first iteration the rollout flag the controller leaves is set
    exactly when the target bank is the rollout one. *)
Lemma target_bank_rollout (orig cross_track heading hdg_to_runway : Q)
    (rollout_started : bool) :
  snd (target_bank orig cross_track heading hdg_to_runway rollout_started)
  = true ->
  target_bank orig cross_track heading hdg_to_runway rollout_started
  = (rollout_target_bank cross_track hdg_to_runway, true).
Proof.
  unfold target_bank.
  destruct ((cross_track >? 200) && negb (heading <? RWY_30L_HEADING - 5)
            && negb rollout_started) eqn:E.
  - cbn [snd]. intros ->. rewrite andb_comm in E. discriminate.
  - reflexivity.
Qed.

(** C2, amended: in a controller step after the first iteration that leaves
    rollout started, with a signed heading error to the runway of at most
    +20 degrees, the target bank is the blend
    clamp(interceptBank * (1 - weight) + headingCorrection * weight, -20, 20)
    with (weight, gain) = (0.9, 1.0) when |cross-track| < 100 ft, (0.7, 0.8)
    when 100 ft <= |cross-track| < 300 ft, and (0.4, 0.6) when
    |cross-track| >= 300 ft. *)
Theorem rollout_blend_target (orig : Q) (iteration : nat)
    (cross_track heading hdg_to_runway : Q) (bank : option Q)
    (rollout_started : bool) (c : Control) :
  iteration <> 1%nat ->
  controller orig iteration cross_track heading hdg_to_runway bank
             rollout_started = inr c ->
  c_rollout_started c = true ->
  hdg_to_runway <= 20 ->
  exists tb,
    c_target_bank c = Some tb /\
    ((Qabs cross_track < 100 /\
      tb == blended_bank 0.9 1.0 cross_track hdg_to_runway) \/
     (100 <= Qabs cross_track /\ Qabs cross_track < 300 /\
      tb == blended_bank 0.7 0.8 cross_track hdg_to_runway) \/
     (300 <= Qabs cross_track /\
      tb == blended_bank 0.4 0.6 cross_track hdg_to_runway)).
Proof.
  intros Hiter Hctl Hroll Hhdg. unfold controller in Hctl.
  apply Nat.eqb_neq in Hiter. rewrite Hiter in Hctl.
  destruct (target_bank orig cross_track heading hdg_to_runway rollout_started)
    as [tb flag] eqn:Etb.
  destruct bank as [b |]; [| discriminate].
  injection Hctl as <-. cbn [c_rollout_started c_target_bank] in *. subst flag.
  rewrite target_bank_rollout in Etb by (rewrite Etb; reflexivity).
  injection Etb as <-.
  exists (rollout_target_bank cross_track hdg_to_runway). split; [reflexivity |].
  unfold heading_blend in *.
  destruct (Qlt_le_dec (Qabs cross_track) 100) as [H1 | H1].
  - left. split; [assumption |].
    apply rollout_target_bank_blend; [assumption |].
    unfold heading_blend, Py.abs.
    replace (Qabs cross_track <? 100) with true
      by (symmetry; apply ltb_true; assumption).
    reflexivity.
  - right. destruct (Qlt_le_dec (Qabs cross_track) 300) as [H2 | H2].
    + left. split; [assumption |]. split; [assumption |].
      apply rollout_target_bank_blend; [assumption |].
      unfold heading_blend, Py.abs.
      replace (Qabs cross_track <? 100) with false
        by (symmetry; apply ltb_false; assumption).
      replace (Qabs cross_track <? 300) with true
        by (symmetry; apply ltb_true; assumption).
      reflexivity.
    + right. split; [assumption |].
      apply rollout_target_bank_blend; [assumption |].
      unfold heading_blend, Py.abs.
      replace (Qabs cross_track <? 100) with false
        by (symmetry; apply ltb_false; assumption).
      replace (Qabs cross_track <? 300) with false
        by (symmetry; apply ltb_false; assumption).
      reflexivity.
Qed.

Lemma rollout_blend_target_witness :
  exists tb,
    Some (rollout_target_bank 120 4.5) = Some tb /\
    ((Qabs 120 < 100 /\ tb == blended_bank 0.9 1.0 120 4.5) \/
     (100 <= Qabs 120 /\ Qabs 120 < 300 /\
      tb == blended_bank 0.7 0.8 120 4.5) \/
     (300 <= Qabs 120 /\ tb == blended_bank 0.4 0.6 120 4.5)).
Proof.
  apply (rollout_blend_target (-27.6) 5 120 310 4.5 (Some (-12)) false
           {| c_target_bank := Some (rollout_target_bank 120 4.5);
              c_bank := limit_bank (-12) (rollout_target_bank 120 4.5)
                                   (max_bank_change true 4.5);
              c_rollout_started := true |}).
  - discriminate.
  - reflexivity.
  - reflexivity.
  - lra.
Defined.

(** C2 as stated fails at |cross-track| = 300 ft exactly: the code tests
    [cross_track_abs < 300], so 300 ft takes the weights (0.4, 0.6) and the
    target bank is -1.2, where the weights (0.7, 0.8) would give 3.8. *)
Lemma blend_at_300_ft_is_far_tier :
  ~ (forall c tb,
       controller (-27.6) 2 300 304.5 10 (Some (-10)) true = inr c ->
       c_rollout_started c = true ->
       10 <= 20 ->
       c_target_bank c = Some tb ->
       tb == blended_bank (fst (tiers_100_to_300_inclusive 300))
                          (snd (tiers_100_to_300_inclusive 300)) 300 10).
Proof.
  intros H.
  specialize (H _ _ eq_refl eq_refl ltac:(lra) eq_refl).
  vm_compute in H. discriminate.
Qed.

Example rollout_target_bank_300 : rollout_target_bank 300 10 == -1.2.
Proof. vm_compute. reflexivity. Qed.

Example blended_bank_300_claimed : blended_bank 0.7 0.8 300 10 == 3.8.
Proof. vm_compute. reflexivity. Qed.




(** ** The deceleration profile *)

Lemma decelerate_cases (speed dist_to_rwy : Q) :
  decelerate speed dist_to_rwy
  = if decel_applies speed dist_to_rwy
    then speed - decel_rate speed dist_to_rwy * dt
    else speed.
Proof.
  unfold decelerate, decel_applies, decel_rate.
  destruct ((speed - TARGET_SPEED_KTS >? 0) && (dist_to_rwy >? 100));
    [| reflexivity].
  destruct (time_to_threshold speed dist_to_rwy >? 1); reflexivity.
Qed.

Lemma decel_applies_iff (speed dist_to_rwy : Q) :
  decel_applies speed dist_to_rwy = true <->
  TARGET_SPEED_KTS < speed /\ 100 < dist_to_rwy /\
  1 < time_to_threshold speed dist_to_rwy.
Proof.
  unfold decel_applies, Py.gtb.
  destruct (0 <? speed - TARGET_SPEED_KTS) eqn:E1;
    destruct (100 <? dist_to_rwy) eqn:E2; cbn [andb].
  - apply ltb_true in E1, E2. rewrite ltb_true.
    split; [intros H; repeat split; qlra | tauto].
  - apply ltb_false in E2.
    split; [discriminate | intros (_ & H & _); exfalso; qlra].
  - apply ltb_false in E1.
    split; [discriminate | intros (H & _); exfalso; qlra].
  - apply ltb_false in E1.
    split; [discriminate | intros (H & _); exfalso; qlra].
Qed.

(** [max(min(rate, 2.0), 0.3)] is the clamp of the rate to [0.3, 2.0]. *)
Lemma decel_rate_clamp (speed dist_to_rwy : Q) :
  decel_rate speed dist_to_rwy
  == clamp ((speed - TARGET_SPEED_KTS) / time_to_threshold speed dist_to_rwy)
           0.3 2.0 /\
  0.3 <= decel_rate speed dist_to_rwy <= 2.0.
Proof.
  unfold decel_rate, clamp.
  set (r := (speed - TARGET_SPEED_KTS) / time_to_threshold speed dist_to_rwy).
  destruct (Q.min_spec 2.0 r) as [[H1 E1] | [H1 E1]];
    destruct (Q.max_spec 0.3 (Qmin 2.0 r)) as [[H2 E2] | [H2 E2]];
    py_cases; repeat split; qlra.
Qed.

(** Where the deceleration applies the speed stays above the target less
    0.15 kts: either the rate is the floor 0.3 kts/s, or it is below the
    speed error because more than a second remains to the threshold. *)
Lemma decelerate_undershoot (speed dist_to_rwy : Q) :
  decel_applies speed dist_to_rwy = true ->
  TARGET_SPEED_KTS - 0.15 < decelerate speed dist_to_rwy /\
  decelerate speed dist_to_rwy < speed.
Proof.
  intros Happ. rewrite decelerate_cases, Happ.
  apply decel_applies_iff in Happ. destruct Happ as (Hs & Hd & Ht).
  unfold decel_rate.
  set (t := time_to_threshold speed dist_to_rwy) in *.
  set (e := speed - TARGET_SPEED_KTS).
  assert (He : 0 < e) by (unfold e; qlra).
  assert (Hr : e / t < e) by (apply Qlt_shift_div_r; [lra | nra]).
  assert (Hr0 : 0 < e / t) by (apply Qlt_shift_div_l; lra).
  clearbody t. py_cases; unfold e in *; split; consts; lra.
Qed.

(** C5, amended: at every integration step the deceleration is applied if
    and only if speed > TARGET_SPEED_KTS, the distance to the runway
    threshold exceeds 100 ft and the time to the threshold at the current
    speed exceeds 1 s; when applied, the speed decreases by rate * dt where
    rate = (speed - targetSpeed) / timeToThreshold clamped to [0.3, 2.0]
    kts/s; when not applied, the speed is left unchanged. *)
Theorem deceleration_applied (speed dist_to_rwy : Q) :
  (decel_applies speed dist_to_rwy = true <->
   TARGET_SPEED_KTS < speed /\ 100 < dist_to_rwy /\
   1 < dist_to_rwy / (speed * KNOTS_TO_FPS)) /\
  (decel_applies speed dist_to_rwy = true ->
   ~ speed * KNOTS_TO_FPS == 0 /\
   decelerate speed dist_to_rwy
   == speed
      - clamp ((speed - TARGET_SPEED_KTS)
               / (dist_to_rwy / (speed * KNOTS_TO_FPS))) 0.3 2.0 * dt) /\
  (decel_applies speed dist_to_rwy = false ->
   decelerate speed dist_to_rwy = speed).
Proof.
  split; [apply decel_applies_iff |]. split.
  - intros Happ. rewrite decelerate_cases, Happ.
    apply decel_applies_iff in Happ. destruct Happ as (Hs & _).
    split.
    + consts. lra.
    + destruct (decel_rate_clamp speed dist_to_rwy) as [E _].
      rewrite E. reflexivity.
  - intros Happ. rewrite decelerate_cases, Happ. reflexivity.
Qed.

(** C5 as stated fails: at 120 kts and 150 ft from the threshold the speed
    is above the target and the distance above 100 ft, but the time to the
    threshold is under one second and the speed is left at 120 kts, where
    the deceleration at the clamped rate (2.0 kts/s) would give 119 kts. *)
Lemma no_deceleration_within_one_second :
  ~ (TARGET_SPEED_KTS < 120 /\ 100 < 150 ->
     decelerate 120 150 == decelerate_while_far 120 150).
Proof.
  intros H.
  assert (Hpre : TARGET_SPEED_KTS < 120 /\ 100 < 150)
    by (unfold TARGET_SPEED_KTS; split; lra).
  specialize (H Hpre). vm_compute in H. discriminate.
Qed.

Example decelerate_120_150 : decelerate 120 150 == 120.
Proof. vm_compute. reflexivity. Qed.

Example decelerate_while_far_120_150 : decelerate_while_far 120 150 == 119.
Proof. vm_compute. reflexivity. Qed.

(** C6 as stated fails: from 100.05 kts, 5000 ft out, the rate is the floor
    0.3 kts/s and the step of 0.15 kts takes the speed to 99.9 kts, below
    TARGET_SPEED_KTS. *)
Lemma deceleration_undershoots_target :
  ~ (TARGET_SPEED_KTS < 100.05 ->
     TARGET_SPEED_KTS <= decelerate 100.05 5000).
Proof.
  intros H.
  assert (Hpre : TARGET_SPEED_KTS < 100.05) by (unfold TARGET_SPEED_KTS; lra).
  specialize (H Hpre). vm_compute in H. apply H. reflexivity.
Qed.

Example decelerate_100_05 : decelerate 100.05 5000 == 99.9.
Proof. vm_compute. reflexivity. Qed.

(** ** The simulation loop *)

Section Loop.

Context {M : Math}.
Variable setup : Setup.

Lemma step_transition (s : State) : transition setup s (step setup s).
Proof.
  unfold step.
  destruct (status s) eqn:Es;
    try (apply loop_left; rewrite Es; discriminate).
  destruct (iteration s <? max_iterations)%nat eqn:Ei.
  - apply Nat.ltb_lt in Ei. unfold loop_body.
    change (lat (next_iteration s)) with (lat s).
    change (lon (next_iteration s)) with (lon s).
    change (heading (next_iteration s)) with (heading s).
    destruct (stop_condition (lat s) (lon s) (heading s)) eqn:Estop.
    + apply loop_break; assumption.
    + destruct (control setup (next_iteration s)) as [e | [c tr]] eqn:Ec.
      * apply loop_raise; assumption.
      * apply loop_advance; assumption.
  - apply Nat.ltb_ge in Ei. apply loop_exhausted; assumption.
Qed.

(** What an iteration that runs to its end leaves. *)
Lemma advance_status s c tr : status (advance setup s c tr) = Running.
Proof.
  unfold advance.
  destruct (destination_point _ _ _ _); destruct (latlon_to_xy_ft _ _ _ _).
  reflexivity.
Qed.

Lemma advance_iteration s c tr : iteration (advance setup s c tr) = iteration s.
Proof.
  unfold advance.
  destruct (destination_point _ _ _ _); destruct (latlon_to_xy_ft _ _ _ _).
  reflexivity.
Qed.

Lemma advance_alt s c tr :
  alt (advance setup s c tr) = descend (actual_descent_fpm setup) (alt s).
Proof.
  unfold advance.
  destruct (destination_point _ _ _ _); destruct (latlon_to_xy_ft _ _ _ _).
  reflexivity.
Qed.

Lemma advance_speed s c tr :
  speed (advance setup s c tr)
  = decelerate (speed s)
      (haversine_distance_ft (lat s) (lon s) (fst RWY_30L_THRESHOLD)
                             (snd RWY_30L_THRESHOLD)).
Proof.
  unfold advance.
  destruct (destination_point _ _ _ _); destruct (latlon_to_xy_ft _ _ _ _).
  reflexivity.
Qed.

Lemma advance_bank s c tr :
  bank (advance setup s c tr) = Some (c_bank c) /\
  rollout_started (advance setup s c tr) = c_rollout_started c.
Proof.
  unfold advance.
  destruct (destination_point _ _ _ _); destruct (latlon_to_xy_ft _ _ _ _).
  split; reflexivity.
Qed.

Lemma advance_rows s c tr :
  phase (advance setup s c tr) = phase s /\
  exists e,
    extended_data (advance setup s c tr) = extended_data s ++ [e] /\
    e_phase e = phase s /\ bank_deg e = c_bank c /\
    e_alt e = alt (advance setup s c tr) /\ gs_kts e = speed (advance setup s c tr).
Proof.
  unfold advance.
  destruct (destination_point _ _ _ _); destruct (latlon_to_xy_ft _ _ _ _).
  split; [reflexivity |]. eexists. split; [reflexivity |].
  repeat split; reflexivity.
Qed.

(** The turns of the loop are counted by [iteration], which never passes
    [max_iterations]; a script that is still in the loop after [n] turns has
    completed [n] iterations. *)
Lemma run_iteration (s0 : State) (n : nat) :
  status s0 = Running -> iteration s0 = O ->
  (iteration (run setup n s0) <= max_iterations)%nat /\
  (iteration (run setup n s0) <= n)%nat /\
  (status (run setup n s0) = Running -> iteration (run setup n s0) = n).
Proof.
  intros Hs0 Hi0. induction n as [| n IH].
  - cbn [run]. rewrite Hi0. repeat split; lia.
  - cbn [run]. destruct IH as (IH1 & IH2 & IH3).
    destruct (step_transition (run setup n s0)) as [Hs Hi | Hs Hi _ | e Hs Hi _ _ | c tr Hs Hi _ _ | Hs].
    + cbn [set_status iteration status].
      repeat split; try lia; try discriminate.
    + cbn [set_status next_iteration iteration status].
      specialize (IH3 Hs). repeat split; try lia; try discriminate.
    + cbn [set_status next_iteration iteration status].
      specialize (IH3 Hs). repeat split; try lia; try discriminate.
    + rewrite advance_iteration, advance_status.
      cbn [next_iteration iteration]. specialize (IH3 Hs).
      repeat split; try lia.
    + repeat split; try lia. intros H. contradiction.
Qed.

Lemma stop_condition_iff (lat lon heading : Q) :
  stop_condition lat lon heading = true <-> stop_predicate lat lon heading.
Proof.
  unfold stop_condition, stop_predicate, Py.abs.
  rewrite orb_true_iff, andb_true_iff, !ltb_true. reflexivity.
Qed.

(** A script out of the loop stays where it is. *)
Lemma step_left (s : State) : status s <> Running -> step setup s = s.
Proof. unfold step. destruct (status s); congruence. Qed.

(** Once stopped by the [break], the state is the one the test was
    evaluated at. *)
Lemma run_stopped (s0 : State) (n : nat) :
  status s0 = Running ->
  status (run setup n s0) = Stopped ->
  stop_predicate (lat (run setup n s0)) (lon (run setup n s0))
                 (heading (run setup n s0)).
Proof.
  intros Hs0. induction n as [| n IH].
  - cbn [run]. rewrite Hs0. discriminate.
  - cbn [run].
    destruct (step_transition (run setup n s0))
      as [Hs Hi | Hs Hi Hstop | e Hs Hi _ _ | c tr Hs Hi _ _ | Hs].
    + cbn [set_status status]. discriminate.
    + intros _. cbn [set_status next_iteration lat lon heading].
      apply stop_condition_iff. assumption.
    + cbn [set_status status]. discriminate.
    + rewrite advance_status. discriminate.
    + assumption.
Qed.

(** The [break] is taken exactly when the stopping predicate holds at the
    state the turn begins with. *)
Lemma step_stopped_iff (s : State) :
  status s = Running -> (iteration s < max_iterations)%nat ->
  (status (step setup s) = Stopped <->
   stop_predicate (lat s) (lon s) (heading s)).
Proof.
  intros Hs Hi. rewrite <- stop_condition_iff.
  destruct (step_transition s)
    as [_ Hi' | _ _ Hstop | e _ _ Hstop _ | c tr _ _ Hstop _ | Hs'].
  - lia.
  - cbn [set_status status]. tauto.
  - cbn [set_status status]. rewrite Hstop. split; discriminate.
  - rewrite advance_status, Hstop. split; discriminate.
  - contradiction.
Qed.

(** The loop is left by the test of the [while] only at the cap. *)
Lemma run_exhausted (s0 : State) (n : nat) :
  status s0 = Running -> iteration s0 = O ->
  status (run setup n s0) = Exhausted ->
  iteration (run setup n s0) = max_iterations.
Proof.
  intros Hs0 Hi0. induction n as [| n IH].
  - cbn [run]. rewrite Hs0. discriminate.
  - cbn [run].
    destruct (run_iteration s0 n Hs0 Hi0) as (Hle & _).
    destruct (step_transition (run setup n s0))
      as [Hs Hi | Hs Hi Hstop | e Hs Hi _ _ | c tr Hs Hi _ _ | Hs].
    + intros _. cbn [set_status iteration]. lia.
    + cbn [set_status status]. discriminate.
    + cbn [set_status status]. discriminate.
    + rewrite advance_status. discriminate.
    + assumption.
Qed.

End Loop.

(** The two exits of the loop: it is left after at most 200 iterations;
    when it is left by the [break], the state evaluated at that iteration
    has along-track below -1000 ft, or |cross-track| < 50 ft and |signed
    heading difference to 314.5| < 5 degrees at once; at every turn the
    [break] is taken exactly under that condition, and the test
    [iteration < 200] fails only at the cap.  An exception that aborts the
    script is not covered. *)
Theorem loop_stops {M : Math} (setup : Setup) (rec : Recorded) :
  let s0 := initial_state setup rec in
  let sf := simulation_loop setup rec in
  max_iterations = 200%nat /\ dt == 0.5 /\
  status sf <> Running /\
  (iteration sf <= 200)%nat /\
  (status sf = Stopped ->
   along_track (lat sf) (lon sf) < -1000 \/
   (Qabs (cross_track (lat sf) (lon sf)) < 50 /\
    Qabs (signed_angle_diff (heading sf) 314.5) < 5)) /\
  (status sf = Exhausted -> iteration sf = 200%nat) /\
  (forall n,
     status (run setup n s0) = Running ->
     (iteration (run setup n s0) < 200)%nat ->
     (status (run setup (S n) s0) = Stopped <->
      stop_predicate (lat (run setup n s0)) (lon (run setup n s0))
                     (heading (run setup n s0)))).
Proof.
  intros s0 sf.
  assert (Hs0 : status s0 = Running) by reflexivity.
  assert (Hi0 : iteration s0 = O) by reflexivity.
  unfold sf, simulation_loop. fold s0.
  destruct (run_iteration setup s0 (S max_iterations) Hs0 Hi0)
    as (Hle & _ & Hrun).
  split; [reflexivity |]. split; [reflexivity |].
  repeat split.
  - intros Hr. specialize (Hrun Hr). lia.
  - exact Hle.
  - intros Hstop. apply (run_stopped setup s0 _ Hs0 Hstop).
  - intros Hex. apply (run_exhausted setup s0 _ Hs0 Hi0 Hex).
  - cbn [run]. apply step_stopped_iff; assumption.
  - cbn [run]. apply step_stopped_iff; assumption.
Qed.

(** C1 (defect of the code): on a recording whose last two rows before the
    split are at one place the groundspeed at the split is 0, the first
    iteration takes the bank -27.6 from the roll file, and the turn-rate
    division by [V_fps] = 0 raises [ZeroDivisionError]: the loop is left in
    iteration 1, far below the cap, with the stopping condition false and no
    row produced.  The test [abs(bank) > 0.5] that is meant to avoid the
    division issue guards the bank, not the divisor. *)
Theorem loop_aborts_on_repeated_position :
  match simulate (M := rational_math) stalled_track with
  | inr sf =>
      status sf = Raised Py.ZeroDivisionError /\
      iteration sf = 1%nat /\
      (iteration sf <? max_iterations)%nat = true /\
      speed sf == 0 /\
      stop_condition (M := rational_math) (lat sf) (lon sf) (heading sf)
      = false /\
      extended_data sf = []
  | inl _ => False
  end.
Proof.
  vm_compute. repeat split; reflexivity.
Qed.

(** ** Bank, phase, altitude and speed along the run *)

Lemma limit_bank_at_target (bank m : Q) :
  0 <= m -> limit_bank bank bank m = bank.
Proof.
  intros Hm. unfold limit_bank, Py.abs, Py.gtb.
  assert (E : (m <? Qabs (bank - bank)) = false).
  { apply ltb_false. rewrite Qabs_pos by lra. lra. }
  rewrite E. reflexivity.
Qed.

Lemma max_bank_change_nonneg (rollout_started : bool) (hdg_to_runway : Q) :
  0 <= max_bank_change rollout_started hdg_to_runway.
Proof.
  unfold max_bank_change.
  destruct rollout_started; [destruct (hdg_to_runway >? 20) |]; qlra.
Qed.

(** While rollout has not started the controller leaves the bank at
    [original_bank_at_split]: the first iteration assigns it, later ones hold
    it as the target. *)
Lemma controller_holds_bank (orig : Q) (iteration : nat)
    (cross_track heading hdg_to_runway : Q) (bank : option Q)
    (rollout_started : bool) (c : Control) :
  (iteration <> 1%nat -> bank = Some orig) ->
  controller orig iteration cross_track heading hdg_to_runway bank
             rollout_started = inr c ->
  c_rollout_started c = false ->
  c_bank c = orig.
Proof.
  intros Hbank Hctl Hroll. unfold controller in Hctl.
  destruct (iteration =? 1)%nat eqn:Ei.
  - injection Hctl as <-. reflexivity.
  - apply Nat.eqb_neq in Ei. rewrite (Hbank Ei) in Hctl.
    unfold target_bank in Hctl.
    destruct ((cross_track >? 200) && negb (heading <? RWY_30L_HEADING - 5)
              && negb rollout_started).
    + injection Hctl as <-. cbn [c_bank].
      apply limit_bank_at_target. apply max_bank_change_nonneg.
    + injection Hctl as <-. discriminate.
Qed.

Section Run.

Context {M : Math}.
Variable setup : Setup.
Variable rec : Recorded.

(** The bank is bound from the first completed iteration on, the rollout
    flag is clear before it, and while the flag is clear the bank is
    [original_bank_at_split]. *)
Lemma run_bank (n : nat) :
  let s := run setup n (initial_state setup rec) in
  status s = Running ->
  (iteration s = O -> rollout_started s = false) /\
  (iteration s <> O ->
   exists b, bank s = Some b /\
             (rollout_started s = false -> b = original_bank_at_split setup)).
Proof.
  induction n as [| n IH]; cbn zeta in *.
  - cbn [run]. intros _. split; [reflexivity | intros H; contradiction].
  - cbn [run].
    destruct (step_transition setup (run setup n (initial_state setup rec)))
      as [Hs Hi | Hs Hi Hstop | e Hs Hi _ _ | c tr Hs Hi _ Hc | Hs].
    + cbn [set_status status]. discriminate.
    + cbn [set_status status]. discriminate.
    + cbn [set_status status]. discriminate.
    + intros _. rewrite advance_iteration. cbn [next_iteration iteration].
      split; [discriminate | intros _].
      destruct (advance_bank setup
                  (next_iteration (run setup n (initial_state setup rec))) c tr)
        as [Eb Er].
      rewrite Eb, Er. exists (c_bank c). split; [reflexivity |].
      intros Hroll. specialize (IH Hs). destruct IH as [IH0 IH1].
      unfold control in Hc. cbn [next_iteration iteration lat lon heading
                                 bank rollout_started speed] in Hc.
      match type of Hc with
      | context [controller ?o ?i ?ct ?h ?he ?b ?r] =>
          destruct (controller o i ct h he b r) as [e | c'] eqn:Ectl;
            [discriminate |]
      end.
      destruct (turn_rate_from_bank _ (c_bank c')); [discriminate |].
      injection Hc as -> _.
      eapply controller_holds_bank; [| exact Ectl | exact Hroll].
      intros Hne.
      destruct IH1 as (b & Eb' & Hb); [lia |].
      rewrite Eb'. f_equal. apply Hb.
      (* the flag was clear before: the controller never clears it *)
      unfold controller in Ectl.
      destruct (S (iteration (run setup n (initial_state setup rec))) =? 1)%nat;
        [injection Ectl as <-; exact Hroll |].
      rewrite Eb' in Ectl. unfold target_bank in Ectl.
      destruct (rollout_started (run setup n (initial_state setup rec)));
        [| reflexivity].
      rewrite andb_false_r in Ectl. injection Ectl as <-. discriminate.
    + intros Hr. contradiction.
Qed.

(** C10: after every completed iteration, from the first to the last one
    that leaves [rollout_started] false, the bank equals
    [original_bank_at_split] exactly. *)
Theorem bank_held_before_rollout (n : nat) :
  let s := run setup n (initial_state setup rec) in
  (1 <= n)%nat ->
  status s = Running ->
  rollout_started s = false ->
  bank s = Some (original_bank_at_split setup).
Proof.
  intros s Hn Hs Hroll. subst s.
  destruct (run_iteration setup (initial_state setup rec) n eq_refl eq_refl)
    as (_ & _ & Hi).
  destruct (run_bank n Hs) as [_ Hb].
  destruct Hb as (b & Eb & Hb); [rewrite (Hi Hs); lia |].
  rewrite Eb. f_equal. apply Hb. exact Hroll.
Qed.

(** The controller never reads an unbound [bank]: the only exception the
    loop can raise is the division by a zero speed in the turn rate. *)
Lemma run_raised (n : nat) (e : Py.exn) :
  let s := run setup n (initial_state setup rec) in
  status s = Raised e ->
  e = Py.ZeroDivisionError /\ speed s == 0.
Proof.
  induction n as [| n IH]; cbn zeta in *.
  - cbn [run]. discriminate.
  - cbn [run].
    destruct (step_transition setup (run setup n (initial_state setup rec)))
      as [Hs Hi | Hs Hi Hstop | e' Hs Hi _ Hc | c tr Hs Hi _ Hc | Hs].
    + cbn [set_status status]. discriminate.
    + cbn [set_status status]. discriminate.
    + cbn [set_status status next_iteration speed]. intros [= ->].
      destruct (run_bank n Hs) as [_ Hb].
      unfold control in Hc. cbn [next_iteration iteration lat lon heading
                                 bank rollout_started speed] in Hc.
      match type of Hc with
      | context [controller ?o ?i ?ct ?h ?he ?b ?r] =>
          destruct (controller o i ct h he b r) as [e1 | c'] eqn:Ectl
      end.
      * exfalso. unfold controller in Ectl.
        destruct (S (iteration (run setup n (initial_state setup rec))) =? 1)%nat
          eqn:E1; [discriminate |].
        apply Nat.eqb_neq in E1.
        destruct Hb as (b & Eb & _); [lia |].
        rewrite Eb in Ectl.
        destruct (target_bank _ _ _ _ _). discriminate.
      * unfold turn_rate_from_bank, Py.div in Hc.
        destruct (Py.abs (c_bank c') >? 0.5); [| discriminate].
        destruct (Qeq_dec _ 0) as [Hz | Hz]; [| discriminate].
        injection Hc as <-. split; [reflexivity |]. qlra.
    + rewrite advance_status. discriminate.
    + assumption.
Qed.

(** C9: every row appended to [extended_data] carries the phase marker 1;
    [phase] is 1 before the loop and no turn of the loop changes it. *)
Theorem phase_marker_is_one (n : nat) :
  let s := run setup n (initial_state setup rec) in
  phase s = 1%Z /\ Forall (fun e => e_phase e = 1%Z) (extended_data s).
Proof.
  induction n as [| n IH]; cbn zeta in *.
  - cbn [run]. split; [reflexivity | constructor].
  - cbn [run]. destruct IH as [IHp IHd].
    destruct (step_transition setup (run setup n (initial_state setup rec)))
      as [Hs Hi | Hs Hi Hstop | e Hs Hi _ _ | c tr Hs Hi _ _ | Hs];
      try (split; assumption).
    destruct (advance_rows setup
                (next_iteration (run setup n (initial_state setup rec))) c tr)
      as (Ep & e & Ed & Ee & _).
    rewrite Ep, Ed. cbn [next_iteration phase extended_data] in *.
    split; [assumption |].
    apply Forall_app. split; [assumption |].
    constructor; [congruence | constructor].
Qed.

End Run.

(** ** Altitude and groundspeed *)

Lemma descend_spec (rate alt : Q) :
  rate <= 0 -> TARGET_ALTITUDE_FT <= alt ->
  TARGET_ALTITUDE_FT <= descend rate alt /\
  descend rate alt <= alt /\
  (TARGET_ALTITUDE_FT <= alt + (rate / 60) * dt ->
   descend rate alt = alt + (rate / 60) * dt) /\
  (alt + (rate / 60) * dt < TARGET_ALTITUDE_FT ->
   descend rate alt = TARGET_ALTITUDE_FT).
Proof.
  intros Hrate Halt. unfold descend.
  destruct (alt + rate / 60 * dt <? TARGET_ALTITUDE_FT) eqn:E.
  - apply ltb_true in E. repeat split; qlra.
  - apply ltb_false in E. repeat split; qlra.
Qed.

(** With the altitude at the split point at or above the floor the descent
    rate of the profile is not a climb. *)
Lemma descent_profile_descends (alt_split dist_to_rwy speed_at_split r : Q) :
  TARGET_ALTITUDE_FT <= alt_split ->
  descent_profile alt_split dist_to_rwy speed_at_split = inr r ->
  r <= 0.
Proof.
  intros Halt. unfold descent_profile.
  destruct (Py.div _ _) as [e | t]; [discriminate |].
  unfold Py.gtb. destruct (0 <? t) eqn:E; intros [= <-].
  - apply ltb_true in E.
    assert (0 <= (alt_split - TARGET_ALTITUDE_FT) / t)
      by (apply Qle_shift_div_l; lra).
    lra.
  - lra.
Qed.

Lemma analyse_descends {M : Math} (rec : Recorded) (setup : Setup) :
  TARGET_ALTITUDE_FT <= pt_alt (pt_split rec) ->
  analyse rec = inr setup ->
  actual_descent_fpm setup <= 0.
Proof.
  intros Halt. unfold analyse. cbv zeta.
  destruct (descent_profile _ _ _) as [e | r] eqn:E; [discriminate |].
  intros [= <-]. cbn [actual_descent_fpm].
  eapply descent_profile_descends; eassumption.
Qed.

Section Profiles.

Context {M : Math}.
Variable setup : Setup.
Variable rec : Recorded.

Lemma initial_alt :
  TARGET_ALTITUDE_FT <= pt_alt (pt_split rec) ->
  TARGET_ALTITUDE_FT <= alt (initial_state setup rec).
Proof.
  intros Halt. unfold initial_state, COLLISION_POINT.
  cbn [alt p_alt]. qlra.
Qed.

Lemma run_alt_floor (n : nat) :
  actual_descent_fpm setup <= 0 ->
  TARGET_ALTITUDE_FT <= pt_alt (pt_split rec) ->
  TARGET_ALTITUDE_FT <= alt (run setup n (initial_state setup rec)).
Proof.
  intros Hrate Halt. induction n as [| n IH].
  - cbn [run]. apply initial_alt. assumption.
  - cbn [run].
    destruct (step_transition setup (run setup n (initial_state setup rec)))
      as [Hs Hi | Hs Hi Hstop | e Hs Hi _ _ | c tr Hs Hi _ _ | Hs];
      try assumption.
    rewrite advance_alt. cbn [next_iteration alt].
    apply descend_spec; assumption.
Qed.

(** C4: with the altitude at the split point at or above the floor
    (TARGET_ALTITUDE_FT = 2213), the altitude never increases from one step
    to the next and is never below the floor, and a step of the simulation
    lowers it by (rate / 60) * dt, or onto the floor when that would pass
    below it. *)
Theorem altitude_profile (n : nat) :
  let s := run setup n (initial_state setup rec) in
  let s' := run setup (S n) (initial_state setup rec) in
  let step_ft := (actual_descent_fpm setup / 60) * dt in
  analyse rec = inr setup ->
  2213 <= pt_alt (pt_split rec) ->
  2213 <= alt s /\ 2213 <= alt s' /\ alt s' <= alt s /\
  (status s' = Running ->
   step_ft <= 0 /\
   (2213 <= alt s + step_ft -> alt s' = alt s + step_ft) /\
   (alt s + step_ft < 2213 -> alt s' = 2213.0)).
Proof.
  intros s s' step_ft Hsetup Halt. subst s s' step_ft.
  assert (Halt' : TARGET_ALTITUDE_FT <= pt_alt (pt_split rec)) by qlra.
  pose proof (analyse_descends rec setup Halt' Hsetup) as Hrate.
  pose proof (run_alt_floor n Hrate Halt') as Hn.
  pose proof (run_alt_floor (S n) Hrate Halt') as HSn.
  split; [qlra |]. split; [qlra |].
  cbn [run] in *.
  destruct (step_transition setup (run setup n (initial_state setup rec)))
    as [Hs Hi | Hs Hi Hstop | e Hs Hi _ _ | c tr Hs Hi _ _ | Hs].
  - cbn [set_status alt status]. split; [lra | discriminate].
  - cbn [set_status next_iteration alt status]. split; [lra | discriminate].
  - cbn [set_status next_iteration alt status]. split; [lra | discriminate].
  - rewrite advance_alt. cbn [next_iteration alt].
    destruct (descend_spec (actual_descent_fpm setup)
                (alt (run setup n (initial_state setup rec))) Hrate Hn)
      as (H1 & H2 & H3 & H4).
    split; [assumption |]. intros _. split; [qlra |].
    split; intros H; [apply H3 | apply H4]; qlra.
  - split; [lra | intros Hr; contradiction].
Qed.

(** C6, amended: groundspeed never increases from one step to the next; a
    step from a groundspeed above TARGET_SPEED_KTS leaves it above
    TARGET_SPEED_KTS - 0.15 kts, so the deceleration can take it below the
    target, by less than 0.15 kts; a groundspeed at or below
    TARGET_SPEED_KTS is left unchanged. *)
Theorem groundspeed_profile (n : nat) :
  let s := run setup n (initial_state setup rec) in
  let s' := run setup (S n) (initial_state setup rec) in
  speed s' <= speed s /\
  (TARGET_SPEED_KTS < speed s -> TARGET_SPEED_KTS - 0.15 < speed s') /\
  (speed s <= TARGET_SPEED_KTS -> speed s' = speed s).
Proof.
  cbn zeta. cbn [run].
  destruct (step_transition setup (run setup n (initial_state setup rec)))
    as [Hs Hi | Hs Hi Hstop | e Hs Hi _ _ | c tr Hs Hi _ _ | Hs];
    try (cbn [set_status next_iteration speed];
         repeat split; try reflexivity; intros; lra).
  rewrite advance_speed. cbn [next_iteration speed lat lon].
  set (v := speed (run setup n (initial_state setup rec))).
  set (d := haversine_distance_ft _ _ _ _).
  rewrite decelerate_cases.
  destruct (decel_applies v d) eqn:Happ.
  - pose proof (decelerate_undershoot v d Happ) as [H1 H2].
    rewrite decelerate_cases, Happ in H1, H2.
    apply decel_applies_iff in Happ. destruct Happ as (Hv & _).
    repeat split; lra.
  - repeat split; try reflexivity; intros; lra.
Qed.

End Profiles.

(** ** The script on [sample_track] *)

Example sample_setup_analysed :
  analyse (M := rational_math) sample_track = inr sample_setup.
Proof. vm_compute. reflexivity. Qed.

Example sample_original_bank : original_bank_at_split sample_setup == -27.6.
Proof. vm_compute. reflexivity. Qed.

Lemma altitude_profile_witness :
  let s0 := initial_state sample_setup sample_track in
  let s := run (M := rational_math) sample_setup 0 s0 in
  let s' := run (M := rational_math) sample_setup 1 s0 in
  let step_ft := (actual_descent_fpm sample_setup / 60) * dt in
  2213 <= alt s /\ 2213 <= alt s' /\ alt s' <= alt s /\
  (status s' = Running ->
   step_ft <= 0 /\
   (2213 <= alt s + step_ft -> alt s' = alt s + step_ft) /\
   (alt s + step_ft < 2213 -> alt s' = 2213.0)).
Proof.
  apply (altitude_profile (M := rational_math) sample_setup sample_track 0).
  - vm_compute. reflexivity.
  - simpl. lra.
Defined.

Lemma bank_held_before_rollout_witness :
  bank (run (M := rational_math) sample_setup 2
            (initial_state sample_setup sample_track))
  = Some (original_bank_at_split sample_setup).
Proof.
  apply (bank_held_before_rollout (M := rational_math)
           sample_setup sample_track 2).
  - lia.
  - vm_compute. reflexivity.
  - vm_compute. reflexivity.
Defined.

(** * Further properties of the script *)

(** ** Headings and bearings *)

(** X1: [normalize_heading] terminates on every heading: both loops are left
    within [turns hdg] evaluations of their conditions, and the result is in
    [0, 360). *)
Theorem normalize_heading_in_range (hdg : Q) :
  normalize_heading_loops (turns hdg) hdg = Some (normalize_heading hdg) /\
  0 <= normalize_heading hdg /\ normalize_heading hdg < 360.
Proof.
  destruct (normalize_heading_spec hdg) as (Hloops & Hlo & Hhi & _).
  split; [apply Hloops; apply Nat.le_refl |]. split; assumption.
Qed.

(** X2: a heading that is already in [0, 360) is returned as it is. *)
Theorem normalize_heading_fixed (hdg : Q) :
  0 <= hdg -> hdg < 360 -> normalize_heading hdg = hdg.
Proof.
  intros Hlo Hhi. unfold normalize_heading, normalize_heading_loops, turns.
  cbn [Py.while].
  assert (E1 : (hdg <? 0) = false) by (apply ltb_false; assumption).
  rewrite E1. cbn [Py.while].
  assert (E2 : (hdg >=? 360) = false) by (apply leb_false; assumption).
  rewrite E2. reflexivity.
Qed.

Lemma normalize_heading_fixed_witness : normalize_heading 314.5 = 314.5.
Proof. apply normalize_heading_fixed; lra. Defined.

(** X3: when [to_hdg - from_hdg] is already in [-180, 180] neither loop of
    [signed_angle_diff] runs and the result is that difference; both -180
    and 180 are kept. *)
Theorem signed_angle_diff_short (from_hdg to_hdg : Q) :
  -180 <= to_hdg - from_hdg -> to_hdg - from_hdg <= 180 ->
  signed_angle_diff from_hdg to_hdg = to_hdg - from_hdg.
Proof.
  intros Hlo Hhi. unfold signed_angle_diff, signed_angle_diff_loops, turns.
  cbn [Py.while].
  assert (E1 : (to_hdg - from_hdg >? 180) = false)
    by (apply ltb_false; assumption).
  rewrite E1. cbn [Py.while].
  assert (E2 : (to_hdg - from_hdg <? -180) = false)
    by (apply ltb_false; assumption).
  rewrite E2. reflexivity.
Qed.

Lemma signed_angle_diff_short_witness :
  signed_angle_diff 340 314.5 = 314.5 - 340.
Proof. apply signed_angle_diff_short; lra. Defined.

Lemma fmod_360_range (x : Q) : 0 <= Py.fmod x 360 /\ Py.fmod x 360 < 360.
Proof.
  unfold Py.fmod.
  pose proof (Qfloor_le (x / 360)) as Hlo.
  pose proof (Qlt_floor (x / 360)) as Hhi.
  rewrite inject_Z_plus in Hhi. change (inject_Z 1) with 1 in Hhi.
  set (k := inject_Z (Qfloor (x / 360))) in *.
  split; qlra.
Qed.

Lemma compute_bearing_range {M : Math} (lat1 lon1 lat2 lon2 : Q) :
  0 <= compute_bearing lat1 lon1 lat2 lon2 /\
  compute_bearing lat1 lon1 lat2 lon2 < 360.
Proof. unfold compute_bearing. apply fmod_360_range. Qed.

(** X4: whatever [math.atan2] returns, [compute_bearing] is in [0, 360). *)
Theorem compute_bearing_in_range {M : Math} (lat1 lon1 lat2 lon2 : Q) :
  0 <= compute_bearing lat1 lon1 lat2 lon2 /\
  compute_bearing lat1 lon1 lat2 lon2 < 360.
Proof. unfold compute_bearing. apply fmod_360_range. Qed.




(** ** Roll data *)

(** From no sample after the target on, the scan returns either what it was
    given or a sample of the data at or before the target, and either no
    next sample or one of the data after the target. *)
Lemma roll_scan_bracket (data : list RollSample) (target_secs : Q)
    (prev : option RollSample) :
  let '(p, n) := roll_scan data target_secs prev None in
  (p = prev \/ exists r, p = Some r /\ In r data /\ secs r <= target_secs) /\
  (n = None \/ exists r, n = Some r /\ In r data /\ target_secs < secs r).
Proof.
  revert prev. induction data as [| r rest IH]; intros prev.
  - cbn [roll_scan]. split; left; reflexivity.
  - cbn [roll_scan]. destruct (secs r <=? target_secs) eqn:E.
    + apply leb_true in E. specialize (IH (Some r)).
      destruct (roll_scan rest target_secs (Some r) None) as [p n].
      destruct IH as [[Hp | (r' & Hp & Hin & Hle)] Hn].
      * split.
        -- right. exists r. split; [assumption |]. split; [left; reflexivity | assumption].
        -- destruct Hn as [Hn | (r' & Hn & Hin & Hlt)]; [left; assumption |].
           right. exists r'. split; [assumption |]. split; [right; assumption | assumption].
      * split.
        -- right. exists r'. split; [assumption |]. split; [right; assumption | assumption].
        -- destruct Hn as [Hn | (r'' & Hn & Hin' & Hlt)]; [left; assumption |].
           right. exists r''. split; [assumption |]. split; [right; assumption | assumption].
    + apply leb_false in E.
      assert (E' : (secs r >? target_secs) = true) by (apply ltb_true; assumption).
      rewrite E'. cbn [andb]. split; [left; reflexivity |].
      right. exists r. split; [reflexivity |]. split; [left; reflexivity | assumption].
Qed.

(** No value exactly on empty data. *)
Lemma interpolate_roll_none (data : list RollSample) (target_secs : Q) :
  interpolate_roll data target_secs = None <-> data = [].
Proof.
  split.
  - destruct data as [| first rest]; [reflexivity |].
    unfold interpolate_roll.
    destruct (roll_scan (first :: rest) target_secs None None) as [[p |] [n |]];
      try discriminate.
    destruct (Qeq_dec (secs p) target_secs); discriminate.
  - intros ->. reflexivity.
Qed.

(** X6: [interpolate_roll] returns [None] exactly when there is no roll
    data; with any data every time gets a value. *)
Theorem interpolate_roll_none_iff (data : list RollSample) (target_secs : Q) :
  interpolate_roll data target_secs = None <-> data = [].
Proof. apply interpolate_roll_none. Qed.

(** A sample found on each side of the target. *)
Lemma roll_scan_both_sides (data : list RollSample) (target_secs : Q)
    (prev next_r : RollSample) :
  roll_scan data target_secs None None = (Some prev, Some next_r) ->
  In prev data /\ In next_r data /\
  secs prev <= target_secs /\ target_secs < secs next_r /\
  0 < secs next_r - secs prev.
Proof.
  intros Hscan. pose proof (roll_scan_bracket data target_secs None) as H.
  rewrite Hscan in H. destruct H as [[Hp | (p & Hp & Hinp & Hle)] [Hn | (n & Hn & Hinn & Hlt)]];
    try discriminate.
  injection Hp as <-. injection Hn as <-.
  repeat split; try assumption. lra.
Qed.

(** X7: when the scan of [interpolate_roll] finds a sample on each side,
    the one before is at or before the target and the one after strictly
    after it, on sorted and unsorted data alike; the divisor of the
    interpolation is positive. *)
Theorem roll_scan_brackets_target (data : list RollSample) (target_secs : Q)
    (prev next_r : RollSample) :
  roll_scan data target_secs None None = (Some prev, Some next_r) ->
  In prev data /\ In next_r data /\
  secs prev <= target_secs /\ target_secs < secs next_r /\
  0 < secs next_r - secs prev.
Proof. intros H. apply roll_scan_both_sides. exact H. Qed.

Lemma roll_scan_brackets_target_witness :
  let data := [ {| secs := 10; roll := -5 |}; {| secs := 12; roll := -9 |} ] in
  In {| secs := 10; roll := -5 |} data /\
  In {| secs := 12; roll := -9 |} data /\
  10 <= 11 /\ 11 < 12 /\ 0 < 12 - 10.
Proof.
  apply (roll_scan_brackets_target
           [ {| secs := 10; roll := -5 |}; {| secs := 12; roll := -9 |} ] 11
           {| secs := 10; roll := -5 |} {| secs := 12; roll := -9 |}).
  reflexivity.
Defined.

Lemma between_interpolation (a b t : Q) :
  0 <= t -> t <= 1 ->
  (a <= a + t * (b - a) /\ a + t * (b - a) <= b) \/
  (b <= a + t * (b - a) /\ a + t * (b - a) <= a).
Proof.
  intros Ht0 Ht1. destruct (Qlt_le_dec a b) as [Hab | Hab].
  - left. split; nra.
  - right. split; nra.
Qed.

(** X8: a value of [interpolate_roll] never leaves the recorded values: it
    lies between the rolls of two samples of the data. *)
Theorem interpolate_roll_between (data : list RollSample) (target_secs v : Q) :
  interpolate_roll data target_secs = Some v ->
  exists a b, In a data /\ In b data /\
    ((roll a <= v /\ v <= roll b) \/ (roll b <= v /\ v <= roll a)).
Proof.
  destruct data as [| first rest]; [discriminate |].
  unfold interpolate_roll.
  destruct (roll_scan (first :: rest) target_secs None None)
    as [[p |] [n |]] eqn:Hscan.
  - destruct (roll_scan_both_sides _ _ _ _ Hscan)
      as (Hinp & Hinn & Hle & Hlt & Hpos).
    destruct (Qeq_dec (secs p) target_secs) as [Heq | Hne]; intros [= <-].
    + exists p, p. repeat split; try assumption. left. split; lra.
    + exists p, n. split; [assumption |]. split; [assumption |].
      apply between_interpolation.
      * apply Qle_shift_div_l; lra.
      * apply Qle_shift_div_r; lra.
  - pose proof (roll_scan_bracket (first :: rest) target_secs None) as H.
    rewrite Hscan in H. destruct H as [[Hp | (r & Hp & Hin & _)] _];
      [discriminate |].
    injection Hp as <-. intros [= <-].
    exists p, p. repeat split; try assumption. left. split; lra.
  - intros [= <-]. exists first, first.
    repeat split; try (left; reflexivity). left. split; lra.
  - intros [= <-]. exists first, first.
    repeat split; try (left; reflexivity). left. split; lra.
Qed.

Lemma interpolate_roll_between_witness :
  let data := [ {| secs := 10; roll := -5 |}; {| secs := 12; roll := -9 |} ] in
  let v := -5 + (11 - 10) / (12 - 10) * (-9 - -5) in
  exists a b, In a data /\ In b data /\
    ((roll a <= v /\ v <= roll b) \/ (roll b <= v /\ v <= roll a)).
Proof.
  apply (interpolate_roll_between
           [ {| secs := 10; roll := -5 |}; {| secs := 12; roll := -9 |} ] 11).
  reflexivity.
Defined.

Lemma roll_scan_all_after (data : list RollSample) (target_secs : Q) :
  Forall (fun r => target_secs < secs r) data ->
  fst (roll_scan data target_secs None None) = None.
Proof.
  intros Hall. destruct data as [| r rest]; [reflexivity |].
  inversion Hall as [| ? ? Hr _]; subst. cbn [roll_scan].
  assert (E1 : (secs r <=? target_secs) = false) by (apply leb_false; assumption).
  assert (E2 : (secs r >? target_secs) = true) by (apply ltb_true; assumption).
  rewrite E1, E2. reflexivity.
Qed.

(** X9: without a roll file, or with one whose rows are all after the split
    time, the bank the simulation starts from is the bank computed from the
    turn rate. *)
Theorem original_bank_falls_back {M : Math} (rec : Recorded) (setup : Setup) :
  analyse rec = inr setup ->
  match roll_file rec with
  | None => True
  | Some rows => Forall (fun r => pt_time (pt_split rec) < secs r) rows
  end ->
  original_bank_at_split setup = bank_at_split setup.
Proof.
  unfold analyse. cbv zeta.
  destruct (descent_profile _ _ _) as [e | r]; [discriminate |].
  intros [= <-] Hroll. cbn [original_bank_at_split bank_at_split].
  destruct (roll_file rec) as [rows |]; [| reflexivity].
  unfold bank_from_roll_file.
  pose proof (roll_scan_all_after rows _ Hroll) as Hscan.
  destruct (roll_scan rows (pt_time (pt_split rec)) None None) as [p n].
  cbn [fst] in Hscan. subst p. reflexivity.
Qed.

Lemma original_bank_falls_back_witness :
  original_bank_at_split sample_setup_without_roll
  = bank_at_split sample_setup_without_roll.
Proof.
  apply (original_bank_falls_back (M := rational_math)
           sample_track_without_roll sample_setup_without_roll).
  - vm_compute. reflexivity.
  - exact I.
Defined.

(** ** The controller, the turn rate and the profiles *)

(** Above +20 degrees of heading error [min] keeps the 8. *)
Lemma rollout_target_above_20 (cross_track hdg_to_runway : Q) :
  20 < hdg_to_runway ->
  rollout_target_bank cross_track hdg_to_runway = 8.
Proof.
  intros Hhdg. unfold rollout_target_bank, Py.min.
  assert (E1 : (hdg_to_runway >? 20) = true) by (apply ltb_true; assumption).
  assert (E2 : (hdg_to_runway * 0.4 <? 8) = false) by (apply ltb_false; lra).
  rewrite E1, E2. reflexivity.
Qed.

(** X10: once rollout has begun and the signed heading error to the runway
    exceeds +20 degrees, the target bank is 8 degrees exactly: 0.4 times the
    error is then above 8 and [min] keeps the 8. *)
Theorem rollout_target_bank_hard_right (cross_track hdg_to_runway : Q) :
  20 < hdg_to_runway ->
  rollout_target_bank cross_track hdg_to_runway = 8.
Proof. intros H. apply rollout_target_above_20. exact H. Qed.

Lemma rollout_target_bank_hard_right_witness :
  rollout_target_bank 700 64.5 = 8.
Proof. apply rollout_target_bank_hard_right. lra. Defined.

(** The clamp, or the 8 of the other branch. *)
Lemma rollout_target_bounds (cross_track hdg_to_runway : Q) :
  -20 <= rollout_target_bank cross_track hdg_to_runway /\
  rollout_target_bank cross_track hdg_to_runway <= 20.
Proof.
  destruct (Qlt_le_dec 20 hdg_to_runway) as [Hhi | Hlo].
  - rewrite rollout_target_above_20 by assumption. split; lra.
  - unfold rollout_target_bank.
    assert (E : (hdg_to_runway >? 20) = false) by (apply ltb_false; assumption).
    rewrite E. destruct (heading_blend (Py.abs cross_track)) as [w g].
    match goal with
    | |- context [Py.max (-20) (Py.min 20 ?x)] =>
        generalize x; intros y
    end.
    destruct (max_spec (-20) (Py.min 20 y)) as (H1 & H2 & [H3 | H3]);
      destruct (min_spec 20 y) as (H4 & H5 & _); rewrite H3 in *; split; lra.
Qed.

(** X11: the target bank of the rollout is within [-20, 20] degrees for
    every cross-track distance and heading error. *)
Theorem rollout_target_bank_range (cross_track hdg_to_runway : Q) :
  -20 <= rollout_target_bank cross_track hdg_to_runway /\
  rollout_target_bank cross_track hdg_to_runway <= 20.
Proof. apply rollout_target_bounds. Qed.

(** X12: after the first iteration the controller leaves the rollout flag
    set exactly when it was set already, or the cross-track distance is at
    most 200 ft, or the heading is below the intercept heading 309.5; it
    never clears the flag. *)
Theorem rollout_trigger (orig : Q) (iteration : nat)
    (cross_track heading hdg_to_runway : Q) (bank : option Q)
    (rollout_started : bool) (c : Control) :
  iteration <> 1%nat ->
  controller orig iteration cross_track heading hdg_to_runway bank
             rollout_started = inr c ->
  (c_rollout_started c = true <->
   rollout_started = true \/ cross_track <= 200 \/ heading < 309.5).
Proof.
  intros Hiter Hctl. unfold controller in Hctl.
  apply Nat.eqb_neq in Hiter. rewrite Hiter in Hctl.
  unfold target_bank in Hctl.
  destruct (cross_track >? 200) eqn:E1;
    destruct (heading <? RWY_30L_HEADING - 5) eqn:E2;
    destruct rollout_started; cbn [andb negb] in Hctl;
    (destruct bank as [b |]; [| discriminate]);
    injection Hctl as <-; cbn [c_rollout_started].
  all: try (apply ltb_true in E1); try (apply ltb_false in E1);
    try (apply ltb_true in E2); try (apply ltb_false in E2).
  all: unfold RWY_30L_HEADING in *.
  all: split; [intros Hf | intros Hd].
  all: try discriminate Hf; try reflexivity.
  all: try (first [left; reflexivity | right; left; lra | right; right; lra]).
  destruct Hd as [Hd | [Hd | Hd]]; [discriminate | exfalso; lra | exfalso; lra].
Qed.

Lemma rollout_trigger_witness :
  c_rollout_started
    {| c_target_bank := Some (rollout_target_bank 150 14.5);
       c_bank := limit_bank (-27.6) (rollout_target_bank 150 14.5)
                            (max_bank_change true 14.5);
       c_rollout_started := true |} = true <->
  false = true \/ 150 <= 200 \/ 300 < 309.5.
Proof.
  apply (rollout_trigger (-27.6) 3 150 300 14.5 (Some (-27.6)) false).
  - discriminate.
  - reflexivity.
Defined.

(** The step of the limiter stops at the target. *)
Lemma limit_bank_no_overshoot (bank target_bank m : Q) :
  0 <= m ->
  (bank <= limit_bank bank target_bank m /\
   limit_bank bank target_bank m <= target_bank) \/
  (target_bank <= limit_bank bank target_bank m /\
   limit_bank bank target_bank m <= bank).
Proof.
  intros Hm. unfold limit_bank, Py.abs, Py.gtb.
  destruct (m <? Qabs (target_bank - bank)) eqn:E.
  - apply ltb_true in E.
    destruct (0 <? target_bank - bank) eqn:E0.
    + apply ltb_true in E0. rewrite Qabs_pos in E by lra. left. split; lra.
    + apply ltb_false in E0. rewrite Qabs_neg in E by lra. right. split; lra.
  - destruct (Qlt_le_dec bank target_bank); [left | right]; split; lra.
Qed.

(** X13: the rate limiter never overshoots: the new bank lies between the
    old bank and the target. *)
Theorem limit_bank_between (bank target_bank m : Q) :
  0 <= m ->
  (bank <= limit_bank bank target_bank m /\
   limit_bank bank target_bank m <= target_bank) \/
  (target_bank <= limit_bank bank target_bank m /\
   limit_bank bank target_bank m <= bank).
Proof. intros H. apply limit_bank_no_overshoot. exact H. Qed.

Lemma limit_bank_between_witness :
  (-27.6 <= limit_bank (-27.6) 8 4 /\ limit_bank (-27.6) 8 4 <= 8) \/
  (8 <= limit_bank (-27.6) 8 4 /\ limit_bank (-27.6) 8 4 <= -27.6).
Proof. apply limit_bank_between. lra. Defined.

(** X14: the turn rate is 0.0 while the bank is within half a degree of
    wings level, whatever the speed; beyond that the division by the speed
    raises [ZeroDivisionError] exactly when the groundspeed is 0, and nothing
    else is raised. *)
Theorem turn_rate_from_bank_raises {M : Math} (speed bank : Q) :
  (Qabs bank <= 0.5 -> turn_rate_from_bank speed bank = inr 0.0) /\
  (turn_rate_from_bank speed bank = inl Py.ZeroDivisionError <->
   0.5 < Qabs bank /\ speed == 0) /\
  (forall e, turn_rate_from_bank speed bank = inl e ->
             e = Py.ZeroDivisionError).
Proof.
  unfold turn_rate_from_bank, Py.div, Py.abs, Py.gtb.
  destruct (0.5 <? Qabs bank) eqn:E.
  - apply ltb_true in E.
    destruct (Qeq_dec (speed * KNOTS_TO_FPS) 0) as [Hz | Hnz].
    + split; [intros H; exfalso; lra |]. split.
      * split; [intros _; split; [assumption | qlra] | reflexivity].
      * intros e [= <-]. reflexivity.
    + split; [intros H; exfalso; lra |]. split.
      * split; [discriminate |].
        intros [_ Hs]. exfalso. apply Hnz. rewrite Hs. ring.
      * intros e H. discriminate.
  - apply ltb_false in E.
    split; [reflexivity |]. split.
    + split; [discriminate | intros [H _]; exfalso; lra].
    + intros e H. discriminate.
Qed.

(** X15: where the deceleration applies, one step takes between 0.15 and
    1.0 kts off the groundspeed. *)
Theorem deceleration_step_size (speed dist_to_rwy : Q) :
  decel_applies speed dist_to_rwy = true ->
  speed - 1 <= decelerate speed dist_to_rwy /\
  decelerate speed dist_to_rwy <= speed - 0.15.
Proof.
  intros Happ. rewrite decelerate_cases, Happ.
  destruct (decel_rate_clamp speed dist_to_rwy) as [_ [Hlo Hhi]].
  split; qlra.
Qed.

Lemma deceleration_step_size_witness :
  113 - 1 <= decelerate 113 2000 /\ decelerate 113 2000 <= 113 - 0.15.
Proof. apply deceleration_step_size. reflexivity. Defined.

(** X16: when the recorded altitude at the split point is below the floor
    (with a positive distance to the runway and a speed that is not
    negative), the rate the profile computes is a climb: the altitude to
    lose is negative, and every step of [descend] from the floor or above
    raises the altitude by (rate / 60) * dt. *)
Theorem descent_profile_climbs (alt_split dist_to_rwy speed_at_split : Q) :
  alt_split < TARGET_ALTITUDE_FT ->
  0 < dist_to_rwy -> 0 <= speed_at_split ->
  exists r,
    descent_profile alt_split dist_to_rwy speed_at_split = inr r /\
    0 < r /\
    forall alt, TARGET_ALTITUDE_FT <= alt ->
      descend r alt = alt + (r / 60) * dt /\ alt < descend r alt.
Proof.
  intros Halt Hdist Hspeed. unfold descent_profile, Py.div.
  set (avg := (speed_at_split + TARGET_SPEED_KTS) / 2 * KNOTS_TO_FPS).
  assert (Havg : 0 < avg) by (unfold avg; qlra).
  destruct (Qeq_dec avg 0) as [Hz | _]; [exfalso; lra |].
  assert (Ht : 0 < dist_to_rwy / avg) by (apply Qlt_shift_div_l; lra).
  assert (E : (dist_to_rwy / avg >? 0) = true) by (apply ltb_true; assumption).
  rewrite E. eexists. split; [reflexivity |].
  set (q := (alt_split - TARGET_ALTITUDE_FT) / (dist_to_rwy / avg)).
  assert (Hq : q < 0).
  { unfold q. apply Qlt_shift_div_r; [assumption | lra]. }
  split; [lra |].
  intros alt Hfloor. unfold descend.
  assert (E2 : (alt + - (q * 60) / 60 * dt <? TARGET_ALTITUDE_FT) = false)
    by (apply ltb_false; qlra).
  rewrite E2. split; [reflexivity | qlra].
Qed.

Lemma descent_profile_climbs_witness :
  exists r,
    descent_profile 2150 2000 113 = inr r /\
    0 < r /\
    forall alt, TARGET_ALTITUDE_FT <= alt ->
      descend r alt = alt + (r / 60) * dt /\ alt < descend r alt.
Proof.
  apply descent_profile_climbs.
  - unfold TARGET_ALTITUDE_FT. lra.
  - lra.
  - lra.
Defined.

(** ** Along the run *)

Lemma controller_keeps_flag (orig : Q) (iteration : nat)
    (cross_track heading hdg_to_runway : Q) (bank : option Q)
    (rollout_started : bool) (c : Control) :
  controller orig iteration cross_track heading hdg_to_runway bank
             rollout_started = inr c ->
  rollout_started = true -> c_rollout_started c = true.
Proof.
  intros Hctl ->. unfold controller in Hctl.
  destruct (iteration =? 1)%nat; [injection Hctl as <-; reflexivity |].
  unfold target_bank in Hctl. rewrite andb_false_r in Hctl.
  destruct bank; [injection Hctl as <-; reflexivity | discriminate].
Qed.

(** The bank the controller leaves is within the larger of 20 degrees and
    the magnitude of the original bank, when the bank it was given is. *)
Lemma controller_bank_bound (orig : Q) (iteration : nat)
    (cross_track heading hdg_to_runway : Q) (bank : option Q)
    (rollout_started : bool) (c : Control) :
  (forall b, bank = Some b -> Qabs b <= Qmax (Qabs orig) 20) ->
  controller orig iteration cross_track heading hdg_to_runway bank
             rollout_started = inr c ->
  Qabs (c_bank c) <= Qmax (Qabs orig) 20.
Proof.
  intros Hb Hctl. unfold controller in Hctl.
  pose proof (Q.le_max_l (Qabs orig) 20) as Hl.
  pose proof (Q.le_max_r (Qabs orig) 20) as Hr.
  destruct (iteration =? 1)%nat; [injection Hctl as <-; exact Hl |].
  destruct (target_bank orig cross_track heading hdg_to_runway rollout_started)
    as [tb flag] eqn:Etb.
  destruct bank as [b |]; [| discriminate]. injection Hctl as <-.
  cbn [c_bank]. specialize (Hb b eq_refl).
  assert (Htb : Qabs tb <= Qmax (Qabs orig) 20).
  { unfold target_bank in Etb.
    destruct ((cross_track >? 200) && negb (heading <? RWY_30L_HEADING - 5)
              && negb rollout_started); injection Etb as <- _.
    - exact Hl.
    - destruct (rollout_target_bounds cross_track hdg_to_runway) as [H1 H2].
      apply Qle_trans with 20; [| exact Hr].
      apply Qabs_Qle_condition. split; lra. }
  apply Qabs_Qle_condition in Hb, Htb. apply Qabs_Qle_condition.
  destruct (limit_bank_no_overshoot b tb (max_bank_change flag hdg_to_runway)
              (max_bank_change_nonneg flag hdg_to_runway))
    as [[H1 H2] | [H1 H2]]; split; lra.
Qed.

Section RunFacts.

Context {M : Math}.
Variable setup : Setup.

Lemma control_inr (s : State) (c : Control) (tr : Q) :
  control setup s = inr (c, tr) ->
  controller (original_bank_at_split setup) (iteration s)
             (cross_track (lat s) (lon s)) (heading s)
             (signed_angle_diff (heading s) RWY_30L_HEADING)
             (bank s) (rollout_started s) = inr c /\
  turn_rate_from_bank (speed s) (c_bank c) = inr tr.
Proof.
  unfold control.
  destruct (controller _ _ _ _ _ _ _) as [e | c']; [discriminate |].
  destruct (turn_rate_from_bank _ _) as [e | tr'] eqn:Etr; [discriminate |].
  intros [= <- <-]. split; [reflexivity | assumption].
Qed.

Lemma advance_heading s c tr :
  heading (advance setup s c tr) = normalize_heading (heading s + tr * dt).
Proof.
  unfold advance.
  destruct (destination_point _ _ _ _); destruct (latlon_to_xy_ft _ _ _ _).
  reflexivity.
Qed.

Lemma advance_time s c tr :
  current_time (advance setup s c tr) = current_time s + dt /\
  exists e,
    extended_data (advance setup s c tr) = extended_data s ++ [e] /\
    e_time e = current_time s + dt /\
    sim_data (advance setup s c tr)
    = sim_data s ++ [{| pt_time := e_time e; pt_lon := e_lon e;
                        pt_lat := e_lat e; pt_alt := e_alt e |}].
Proof.
  unfold advance.
  destruct (destination_point _ _ _ _); destruct (latlon_to_xy_ft _ _ _ _).
  split; [reflexivity |]. eexists. split; [reflexivity |].
  split; reflexivity.
Qed.

Lemma step_keeps_rollout (s : State) :
  rollout_started s = true -> rollout_started (step setup s) = true.
Proof.
  intros Hr.
  destruct (step_transition setup s)
    as [Hs Hi | Hs Hi Hstop | e Hs Hi _ _ | c tr Hs Hi _ Hc | Hs];
    try assumption.
  destruct (advance_bank setup (next_iteration s) c tr) as [_ Er].
  rewrite Er. apply control_inr in Hc. destruct Hc as [Hc _].
  eapply controller_keeps_flag; [exact Hc | exact Hr].
Qed.

(** X17: [rollout_started] is monotonic along the run: once it is true
    after some turn of the loop it is true after every later one. *)
Theorem rollout_started_monotone (s : State) (n m : nat) :
  (n <= m)%nat ->
  rollout_started (run setup n s) = true ->
  rollout_started (run setup m s) = true.
Proof.
  intros Hnm Hr. induction Hnm as [| m Hnm IH].
  - assumption.
  - cbn [run]. apply step_keeps_rollout. assumption.
Qed.

Lemma run_heading (s : State) (n : nat) :
  0 <= heading s /\ heading s < 360 ->
  0 <= heading (run setup n s) /\ heading (run setup n s) < 360.
Proof.
  intros H0. induction n as [| n IH]; [assumption |].
  cbn [run].
  destruct (step_transition setup (run setup n s))
    as [Hs Hi | Hs Hi Hstop | e Hs Hi _ _ | c tr Hs Hi _ _ | Hs];
    try assumption.
  rewrite advance_heading.
  destruct (normalize_heading_spec
              (heading (next_iteration (run setup n s)) + tr * dt))
    as (_ & Hlo & Hhi & _).
  split; assumption.
Qed.

Lemma run_bank_bound (s : State) (n : nat) :
  (forall b, bank s = Some b ->
             Qabs b <= Qmax (Qabs (original_bank_at_split setup)) 20) ->
  forall b, bank (run setup n s) = Some b ->
            Qabs b <= Qmax (Qabs (original_bank_at_split setup)) 20.
Proof.
  intros H0. induction n as [| n IH]; [assumption |].
  cbn [run].
  destruct (step_transition setup (run setup n s))
    as [Hs Hi | Hs Hi Hstop | e Hs Hi _ _ | c tr Hs Hi _ Hc | Hs];
    try assumption.
  destruct (advance_bank setup (next_iteration (run setup n s)) c tr)
    as [Eb _].
  rewrite Eb. intros b [= <-].
  apply control_inr in Hc. destruct Hc as [Hc _].
  eapply controller_bank_bound; [| exact Hc]. exact IH.
Qed.

Lemma run_speed_positive (s : State) (n : nat) :
  0 < speed s -> 0 < speed (run setup n s).
Proof.
  intros H0. induction n as [| n IH]; [assumption |].
  cbn [run].
  destruct (step_transition setup (run setup n s))
    as [Hs Hi | Hs Hi Hstop | e Hs Hi _ _ | c tr Hs Hi _ _ | Hs];
    try assumption.
  rewrite advance_speed. cbn [next_iteration speed lat lon].
  rewrite decelerate_cases.
  destruct (decel_applies _ _) eqn:Happ; [| assumption].
  pose proof (decelerate_undershoot _ _ Happ) as [H1 _].
  rewrite decelerate_cases, Happ in H1. qlra.
Qed.

End RunFacts.

Lemma rollout_started_monotone_witness :
  rollout_started
    (run (M := rational_math) sample_setup_past_intercept 3
         (initial_state sample_setup_past_intercept sample_track)) = true.
Proof.
  apply (rollout_started_monotone (M := rational_math)
           sample_setup_past_intercept
           (initial_state sample_setup_past_intercept sample_track) 2 3).
  - lia.
  - vm_compute. reflexivity.
Defined.

(** X18: the heading is in [0, 360) at every turn of the loop: the bearing
    the run starts from is, and each iteration normalizes the heading it
    leaves. *)
Theorem heading_stays_normalized {M : Math} (rec : Recorded) (setup : Setup)
    (n : nat) :
  analyse rec = inr setup ->
  0 <= heading (run setup n (initial_state setup rec)) /\
  heading (run setup n (initial_state setup rec)) < 360.
Proof.
  intros Hsetup. apply run_heading.
  unfold analyse in Hsetup. cbv zeta in Hsetup.
  destruct (descent_profile _ _ _) as [e | r]; [discriminate |].
  injection Hsetup as <-.
  unfold initial_state. cbn [heading heading_at_split].
  apply compute_bearing_range.
Qed.

Lemma heading_stays_normalized_witness :
  0 <= heading (run (M := rational_math) sample_setup 2
                    (initial_state sample_setup sample_track)) /\
  heading (run (M := rational_math) sample_setup 2
               (initial_state sample_setup sample_track)) < 360.
Proof.
  apply (heading_stays_normalized (M := rational_math)
           sample_track sample_setup 2).
  vm_compute. reflexivity.
Defined.

(** X19: the bank never exceeds, in magnitude, the larger of 20 degrees and
    the magnitude of [original_bank_at_split]. *)
Theorem bank_stays_bounded {M : Math} (setup : Setup) (rec : Recorded)
    (n : nat) (b : Q) :
  bank (run setup n (initial_state setup rec)) = Some b ->
  Qabs b <= Qmax (Qabs (original_bank_at_split setup)) 20.
Proof.
  apply run_bank_bound. unfold initial_state. cbn [bank]. discriminate.
Qed.

Lemma bank_stays_bounded_witness :
  Qabs (original_bank_at_split sample_setup)
  <= Qmax (Qabs (original_bank_at_split sample_setup)) 20.
Proof.
  apply (bank_stays_bounded (M := rational_math) sample_setup sample_track 1).
  vm_compute. reflexivity.
Defined.

(** The track point of a row of [extended_data]. *)
Lemma nth_error_snoc {A : Type} (l : list A) (a : A) (k : nat) (x : A) :
  nth_error (l ++ [a]) k = Some x ->
  nth_error l k = Some x \/ (k = length l /\ x = a).
Proof.
  intros H. destruct (Nat.lt_ge_cases k (length l)) as [Hlt | Hge].
  - left. rewrite nth_error_app1 in H by assumption. assumption.
  - right. rewrite nth_error_app2 in H by assumption.
    destruct (k - length l)%nat as [| j] eqn:Ej.
    + cbn in H. injection H as <-. split; [lia | reflexivity].
    + cbn in H. destruct j; discriminate.
Qed.

Lemma initial_state_fields (setup : Setup) (rec : Recorded) :
  status (initial_state setup rec) = Running /\
  iteration (initial_state setup rec) = O /\
  extended_data (initial_state setup rec) = [] /\
  current_time (initial_state setup rec) = SPLIT_TIME.
Proof. repeat split; reflexivity. Qed.

(** X20: one row is appended per completed iteration and none by the
    iteration that breaks or aborts; the clock is the split time plus half a
    second per row, and the k-th row (from 1) is stamped
    SPLIT_TIME + k * dt, so the times of the rows increase strictly. *)
Theorem rows_and_clock {M : Math} (setup : Setup) (rec : Recorded) (n : nat) :
  let s := run setup n (initial_state setup rec) in
  (status s = Running \/ status s = Exhausted ->
   length (extended_data s) = iteration s) /\
  (status s = Stopped \/ (exists e, status s = Raised e) ->
   S (length (extended_data s)) = iteration s) /\
  current_time s
  == SPLIT_TIME + inject_Z (Z.of_nat (length (extended_data s))) * dt /\
  (forall k row, nth_error (extended_data s) k = Some row ->
     e_time row == SPLIT_TIME + inject_Z (Z.of_nat (S k)) * dt).
Proof.
  induction n as [| n IH]; cbn zeta in *.
  - cbn [run].
    destruct (initial_state_fields setup rec) as (Es & Ei & Ed & Et).
    rewrite Es, Ei, Ed, Et. cbn [length].
    split; [reflexivity |]. split.
    + intros [H | [e H]]; discriminate.
    + split; [change (inject_Z (Z.of_nat 0)) with 0; ring |].
      intros [| k] row H; discriminate.
  - cbn [run]. destruct IH as (IH1 & IH2 & IH3 & IH4).
    destruct (step_transition setup (run setup n (initial_state setup rec)))
      as [Hs Hi | Hs Hi Hstop | e Hs Hi _ _ | c tr Hs Hi _ _ | Hs].
    + cbn [set_status status iteration extended_data current_time].
      split; [intros _; apply IH1; left; assumption |].
      split; [intros [H | [e H]]; discriminate |].
      split; assumption.
    + cbn [set_status next_iteration status iteration extended_data
             current_time].
      split; [intros [H | H]; discriminate |].
      split; [intros _; f_equal; apply IH1; left; assumption |].
      split; assumption.
    + cbn [set_status next_iteration status iteration extended_data
             current_time].
      split; [intros [H | H]; discriminate |].
      split; [intros _; f_equal; apply IH1; left; assumption |].
      split; assumption.
    + rewrite advance_status, advance_iteration.
      destruct (advance_time setup
                  (next_iteration (run setup n (initial_state setup rec))) c tr)
        as (Et & row & Ed & Er & _).
      rewrite Et, Ed. cbn [next_iteration iteration current_time extended_data]
        in *.
      rewrite length_app. cbn [length]. rewrite Nat.add_1_r.
      split; [intros _; f_equal; apply IH1; left; assumption |].
      split; [intros [H | [e H]]; discriminate |].
      split.
      * rewrite inject_Z_S. rewrite IH3. ring.
      * intros k row' Hk. apply nth_error_snoc in Hk.
        destruct Hk as [Hk | [-> ->]]; [apply IH4; assumption |].
        rewrite Er, inject_Z_S, IH3. ring.
    + split; [assumption |]. split; [assumption |]. split; assumption.
Qed.

(** The track grows by the track points of the rows. *)
Lemma run_sim_data {M : Math} (setup : Setup) (rec : Recorded)
    (n : nat) :
  let s0 := initial_state setup rec in
  let s := run setup n s0 in
  sim_data s
  = sim_data s0
    ++ map (fun e => {| pt_time := e_time e; pt_lon := e_lon e;
                        pt_lat := e_lat e; pt_alt := e_alt e |})
           (extended_data s) /\
  recorded_rows (sim_data s) (extended_data s) = sim_data s0.
Proof.
  cbn zeta.
  assert (Hsim :
    sim_data (run setup n (initial_state setup rec))
    = sim_data (initial_state setup rec)
      ++ map (fun e => {| pt_time := e_time e; pt_lon := e_lon e;
                          pt_lat := e_lat e; pt_alt := e_alt e |})
             (extended_data (run setup n (initial_state setup rec)))).
  { induction n as [| n IH].
    - cbn [run].
      destruct (initial_state_fields setup rec) as (_ & _ & Ed & _).
      rewrite Ed. cbn [map]. rewrite app_nil_r. reflexivity.
    - cbn [run].
      destruct (step_transition setup (run setup n (initial_state setup rec)))
        as [Hs Hi | Hs Hi Hstop | e Hs Hi _ _ | c tr Hs Hi _ _ | Hs];
        try assumption.
      destruct (advance_time setup
                  (next_iteration (run setup n (initial_state setup rec))) c tr)
        as (_ & row & Ed & _ & Es).
      rewrite Es, Ed. cbn [next_iteration sim_data extended_data].
      rewrite IH at 1. rewrite map_app, app_assoc. reflexivity. }
  split; [exact Hsim |].
  unfold recorded_rows. rewrite Hsim at 1 2.
  rewrite length_app, length_map, Nat.add_sub.
  rewrite firstn_app, Nat.sub_diag, firstn_all. cbn [firstn].
  apply app_nil_r.
Qed.

(** X21: [sim_data] is the recorded track followed by the track points of
    the rows of [extended_data], so the slice
    [sim_data[:len(sim_data) - len(extended_data)]] the output files are
    built from is the recorded track. *)
Theorem recorded_rows_recovered {M : Math} (setup : Setup) (rec : Recorded)
    (n : nat) :
  let s0 := initial_state setup rec in
  let s := run setup n s0 in
  sim_data s
  = sim_data s0
    ++ map (fun e => {| pt_time := e_time e; pt_lon := e_lon e;
                        pt_lat := e_lat e; pt_alt := e_alt e |})
           (extended_data s) /\
  recorded_rows (sim_data s) (extended_data s) = sim_data s0.
Proof. apply run_sim_data. Qed.

(** X22: with a positive groundspeed at the split point no turn of the loop
    raises an exception: the speed stays positive, so the turn-rate division
    is defined, and [bank] is bound whenever it is read. *)
Theorem no_exception_with_groundspeed {M : Math} (setup : Setup)
    (rec : Recorded) (n : nat) (e : Py.exn) :
  0 < speed_at_split setup ->
  status (run setup n (initial_state setup rec)) <> Raised e.
Proof.
  intros Hpos Hr.
  destruct (run_raised setup rec n e Hr) as [_ Hz].
  assert (H0 : 0 < speed (initial_state setup rec)) by exact Hpos.
  pose proof (run_speed_positive setup (initial_state setup rec) n H0) as Hn.
  lra.
Qed.

Lemma no_exception_with_groundspeed_witness :
  status (run (M := rational_math) sample_setup 2
              (initial_state sample_setup sample_track))
  <> Raised Py.ZeroDivisionError.
Proof.
  apply (no_exception_with_groundspeed (M := rational_math)).
  vm_compute. reflexivity.
Defined.

(** X23: with no groundspeed at the split point (two recorded rows at one
    place), a bank beyond half a degree and the stopping predicate false at
    the start, the script aborts in its first iteration: the turn-rate
    division by [V_fps] = 0 raises [ZeroDivisionError]. *)
Theorem stationary_start_aborts {M : Math} (setup : Setup) (rec : Recorded) :
  let s0 := initial_state setup rec in
  speed_at_split setup == 0 ->
  0.5 < Qabs (original_bank_at_split setup) ->
  stop_condition (lat s0) (lon s0) (heading s0) = false ->
  status (run setup 1 s0) = Raised Py.ZeroDivisionError.
Proof.
  intros s0 Hz Hbank Hstop.
  assert (Hc : control setup (next_iteration s0) = inl Py.ZeroDivisionError).
  { unfold control.
    cbn [next_iteration iteration bank rollout_started speed lat lon heading].
    replace (iteration s0) with O by reflexivity.
    unfold controller. cbn [Nat.eqb c_bank].
    unfold turn_rate_from_bank, Py.div, Py.abs, Py.gtb.
    rewrite (proj2 (ltb_true _ _) Hbank).
    change (speed s0) with (speed_at_split setup).
    destruct (Qeq_dec (speed_at_split setup * KNOTS_TO_FPS) 0) as [_ | Hne];
      [reflexivity |].
    exfalso. apply Hne. rewrite Hz. ring. }
  cbn [run].
  destruct (step_transition setup s0)
    as [Hs Hi | Hs Hi Hstop' | e Hs Hi _ Hc' | c tr Hs Hi _ Hc' | Hs].
  - exfalso. replace (iteration s0) with O in Hi by reflexivity.
    unfold max_iterations in Hi. lia.
  - congruence.
  - cbn [set_status status]. congruence.
  - congruence.
  - exfalso. apply Hs. reflexivity.
Qed.

Lemma stationary_start_aborts_witness :
  status (run (M := rational_math) sample_setup_stationary 1
              (initial_state sample_setup_stationary sample_track))
  = Raised Py.ZeroDivisionError.
Proof.
  apply (stationary_start_aborts (M := rational_math)
           sample_setup_stationary sample_track).
  - vm_compute. reflexivity.
  - vm_compute. reflexivity.
  - vm_compute. reflexivity.
Defined.

(** ** Output files *)

Lemma nth_error_in_range {A : Type} (l : list A) (k : nat) :
  (k < length l)%nat -> exists x, nth_error l k = Some x /\ In x l.
Proof.
  intros Hk. destruct (nth_error l k) as [x |] eqn:E.
  - exists x. split; [reflexivity |]. eapply nth_error_In. exact E.
  - apply nth_error_None in E. lia.
Qed.

Lemma gs_at_bounds (l : list (Q * Q)) (k : nat) (lo hi : Q) :
  Forall (fun r => lo <= snd r /\ snd r <= hi) l ->
  (k < length l)%nat ->
  exists a, gs_at l k = Some a /\ lo <= a /\ a <= hi.
Proof.
  intros Hall Hk. destruct (nth_error_in_range l k Hk) as (x & Ex & Hin).
  exists (snd x). unfold gs_at. rewrite Ex. split; [reflexivity |].
  rewrite Forall_forall in Hall. apply Hall. assumption.
Qed.

(** The average at a row of the list is defined, and within any bounds the
    values of the list are within. *)
Lemma smoothed_bounds (l : list (Q * Q)) (i : nat) (row : Q * Q) (lo hi : Q) :
  Forall (fun r => lo <= snd r /\ snd r <= hi) l ->
  nth_error l i = Some row ->
  exists v, smoothed l i (snd row) = Some v /\ lo <= v /\ v <= hi.
Proof.
  intros Hall Hrow.
  assert (Hi : (i < length l)%nat)
    by (apply nth_error_Some; rewrite Hrow; discriminate).
  assert (Hin : lo <= snd row /\ snd row <= hi).
  { rewrite Forall_forall in Hall. apply Hall. eapply nth_error_In. exact Hrow. }
  unfold smoothed. destruct (i =? 0)%nat eqn:E0.
  - destruct (1 <? length l)%nat eqn:E1.
    + apply Nat.ltb_lt in E1.
      destruct (gs_at_bounds l 0 lo hi Hall) as (a & Ea & Ha); [lia |].
      destruct (gs_at_bounds l 1 lo hi Hall) as (b & Eb & Hb); [lia |].
      rewrite Ea, Eb. eexists. split; [reflexivity |]. split; qlra.
    + exists (snd row). split; [reflexivity | assumption].
  - apply Nat.eqb_neq in E0. destruct (i =? length l - 1)%nat eqn:E1.
    + destruct (gs_at_bounds l (i - 1) lo hi Hall) as (a & Ea & Ha); [lia |].
      destruct (gs_at_bounds l i lo hi Hall) as (b & Eb & Hb); [lia |].
      rewrite Ea, Eb. eexists. split; [reflexivity |]. split; qlra.
    + apply Nat.eqb_neq in E1.
      destruct (gs_at_bounds l (i - 1) lo hi Hall) as (a & Ea & Ha); [lia |].
      destruct (gs_at_bounds l i lo hi Hall) as (b & Eb & Hb); [lia |].
      destruct (gs_at_bounds l (i + 1) lo hi Hall) as (c & Ec & Hc); [lia |].
      rewrite Ea, Eb, Ec. eexists. split; [reflexivity |]. split; qlra.
Qed.

Lemma gs_output_from_bounds (l : list (Q * Q)) (lo hi : Q)
    (rows : list (Q * Q)) (i : nat) :
  Forall (fun r => lo <= snd r /\ snd r <= hi) l ->
  (forall j row, nth_error rows j = Some row ->
                 nth_error l (i + j) = Some row) ->
  exists out,
    gs_output_from l i rows = Some out /\
    map fst out = map fst rows /\
    Forall (fun r => lo <= snd r /\ snd r <= hi) out.
Proof.
  intros Hall. revert i. induction rows as [| [t gs] rest IH]; intros i Hrows.
  - exists []. repeat split; constructor.
  - cbn [gs_output_from].
    destruct (smoothed_bounds l i (t, gs) lo hi Hall) as (v & Ev & Hv).
    { specialize (Hrows O (t, gs) eq_refl). rewrite Nat.add_0_r in Hrows.
      exact Hrows. }
    cbn [snd] in Ev. rewrite Ev.
    destruct (IH (S i)) as (out & Eout & Hfst & Hout).
    { intros j row Hj. specialize (Hrows (S j) row Hj).
      rewrite Nat.add_succ_r in Hrows. exact Hrows. }
    rewrite Eout. exists ((t, v) :: out). split; [reflexivity |]. split.
    + cbn [map fst]. f_equal. exact Hfst.
    + constructor; assumption.
Qed.

Lemma gs_output_bounded (l : list (Q * Q)) (lo hi : Q) :
  Forall (fun r => lo <= snd r /\ snd r <= hi) l ->
  exists out,
    gs_output l = Some out /\ map fst out = map fst l /\
    Forall (fun r => lo <= snd r /\ snd r <= hi) out.
Proof.
  intros Hall. apply gs_output_from_bounds; [assumption |].
  intros j row Hj. exact Hj.
Qed.

(** Every finite list of speeds has bounds. *)
Lemma speeds_bounded (l : list (Q * Q)) :
  exists lo hi, Forall (fun r => lo <= snd r /\ snd r <= hi) l.
Proof.
  induction l as [| r l (lo & hi & IH)].
  - exists 0, 0. constructor.
  - exists (Qmin lo (snd r)), (Qmax hi (snd r)). constructor.
    + split; [apply Q.le_min_r | apply Q.le_max_r].
    + eapply Forall_impl; [| exact IH]. cbv beta. intros x [H1 H2].
      pose proof (Q.le_min_l lo (snd r)). pose proof (Q.le_max_l hi (snd r)).
      split; lra.
Qed.

(** X24: the smoothing never indexes outside [gs_raw]: it returns one row
    per row of [gs_raw], with the times unchanged. *)
Theorem gs_output_rows (gs_raw : list (Q * Q)) :
  exists out,
    gs_output gs_raw = Some out /\
    map fst out = map fst gs_raw /\ length out = length gs_raw.
Proof.
  destruct (speeds_bounded gs_raw) as (lo & hi & Hall).
  destruct (gs_output_bounded gs_raw lo hi Hall) as (out & Eout & Hfst & _).
  exists out. split; [assumption |]. split; [assumption |].
  rewrite <- (length_map fst out), Hfst. apply length_map.
Qed.





Section GroundspeedFacts.

Context {M : Math}.

Lemma gs_raw_from_length (prev_pt : TrackPoint) (rows : list TrackPoint) :
  (length (gs_raw_from prev_pt rows) <= length rows)%nat.
Proof.
  revert prev_pt. induction rows as [| pt rest IH]; intros prev_pt.
  - apply Nat.le_refl.
  - cbn [gs_raw_from]. cbv zeta.
    destruct (pt_time pt - pt_time prev_pt <=? 0).
    + specialize (IH pt). cbn [length]. lia.
    + specialize (IH pt). cbn [length]. lia.
Qed.

Lemma gs_raw_from_increasing (prev_pt : TrackPoint) (rows : list TrackPoint) :
  Sorted (fun a b => pt_time a < pt_time b) (prev_pt :: rows) ->
  map fst (gs_raw_from prev_pt rows) = map pt_time rows.
Proof.
  revert prev_pt. induction rows as [| pt rest IH]; intros prev_pt Hs.
  - reflexivity.
  - inversion Hs as [| ? ? Hs' Hhd]; subst.
    inversion Hhd as [| ? ? Hlt]; subst.
    cbn [gs_raw_from]. cbv zeta.
    assert (E : (pt_time pt - pt_time prev_pt <=? 0) = false)
      by (apply leb_false; lra).
    rewrite E. cbn [map fst]. f_equal. apply IH. assumption.
Qed.

(** X27: the groundspeed series has at most one row less than the track,
    since a row whose time is not after the previous row's gives no speed;
    on a track with strictly increasing times it has a speed for every row
    but the first, stamped with that row's time. *)
Theorem gs_raw_rows (sim_data : list TrackPoint) :
  (length (gs_raw sim_data) <= length sim_data - 1)%nat /\
  (Sorted (fun a b => pt_time a < pt_time b) sim_data ->
   map fst (gs_raw sim_data) = map pt_time (tl sim_data)).
Proof.
  destruct sim_data as [| pt rest].
  - split; [apply Nat.le_refl | reflexivity].
  - cbn [gs_raw tl]. split.
    + pose proof (gs_raw_from_length pt rest). cbn [length]. lia.
    + apply gs_raw_from_increasing.
Qed.

End GroundspeedFacts.

Section OutputFacts.

Context {M : Math}.
Variable setup : Setup.
Variable rec : Recorded.

(** The rows of [extended_data] carry the phase of the loop. *)
Lemma run_rows_phase (n : nat) :
  phase (run setup n (initial_state setup rec)) = 1%Z /\
  forall row, In row (extended_data (run setup n (initial_state setup rec))) ->
              e_phase row = 1%Z.
Proof.
  induction n as [| n [IHp IHr]].
  - cbn [run]. split; [reflexivity | intros row []].
  - cbn [run].
    destruct (step_transition setup (run setup n (initial_state setup rec)))
      as [Hs Hi | Hs Hi Hstop | e Hs Hi _ _ | c tr Hs Hi _ _ | Hs];
      try (split; assumption).
    destruct (advance_rows setup
                (next_iteration (run setup n (initial_state setup rec))) c tr)
      as (Ep & e & Ed & Ee & _).
    rewrite Ep, Ed. cbn [next_iteration phase extended_data] in *.
    split; [assumption |].
    intros row Hin. apply in_app_or in Hin.
    destruct Hin as [Hin | [<- | []]]; [apply IHr; assumption | congruence].
Qed.

(** X28: in the extended file the recorded rows come first, one per row of
    the recorded track and in its order, with phase 0 and zeros for speed,
    heading, bank and turn rate; the simulated rows follow with phase 1. *)
Theorem extended_file_phases (n : nat) :
  let s0 := initial_state setup rec in
  let s := run setup n s0 in
  exists recorded,
    all_extended (sim_data s) (extended_data s)
    = recorded ++ extended_data s /\
    map e_time recorded = map pt_time (sim_data s0) /\
    Forall (fun r => e_phase r = 0%Z /\ gs_kts r = 0 /\ e_heading r = 0 /\
                     bank_deg r = 0 /\ e_turn_rate r = 0) recorded /\
    Forall (fun r => e_phase r = 1%Z) (extended_data s).
Proof.
  cbn zeta. unfold all_extended.
  destruct (run_sim_data setup rec n) as [_ Hrec]. cbn zeta in Hrec.
  rewrite Hrec. eexists. split; [reflexivity |]. split; [| split].
  - rewrite map_map. apply map_ext. intros pt.
    destruct (latlon_to_xy_ft _ _ _ _). reflexivity.
  - apply Forall_forall. intros r Hin. apply in_map_iff in Hin.
    destruct Hin as (pt & <- & _).
    destruct (latlon_to_xy_ft _ _ _ _). repeat split; reflexivity.
  - apply Forall_forall. apply run_rows_phase.
Qed.

Lemma roll_rows_times (data : list RollSample) (rows : list TrackPoint) :
  data <> [] ->
  map fst
    (flat_map
       (fun pt =>
          match interpolate_roll data (pt_time pt) with
          | Some roll_val => [(pt_time pt, roll_val)]
          | None => []
          end) rows)
  = map pt_time rows.
Proof.
  intros Hdata. induction rows as [| pt rest IH]; [reflexivity |].
  cbn [flat_map]. destruct (interpolate_roll data (pt_time pt)) as [v |] eqn:E.
  - cbn [app map fst]. f_equal. exact IH.
  - apply interpolate_roll_none in E. contradiction.
Qed.

(** X29: with any roll data the roll file has one row per row of the track,
    at the track's times; with none it has the simulated rows only, each
    with the bank of its iteration. *)
Theorem roll_file_rows (n : nat) (original_roll_data : list RollSample) :
  let s := run setup n (initial_state setup rec) in
  (original_roll_data <> [] ->
   map fst (roll_output original_roll_data (sim_data s) (extended_data s))
   = map pt_time (sim_data s)) /\
  roll_output [] (sim_data s) (extended_data s)
  = map (fun pt => (e_time pt, bank_deg pt)) (extended_data s).
Proof.
  cbn zeta. destruct (run_sim_data setup rec n) as [Hsim Hrec].
  cbn zeta in Hsim, Hrec. unfold roll_output. rewrite Hrec. split.
  - intros Hdata. rewrite map_app, roll_rows_times by assumption.
    rewrite Hsim. rewrite map_app, !map_map. reflexivity.
  - assert (Hnil : forall rows : list TrackPoint,
              flat_map
                (fun pt =>
                   match interpolate_roll [] (pt_time pt) with
                   | Some roll_val => [(pt_time pt, roll_val)]
                   | None => []
                   end) rows = []).
    { induction rows as [| pt rest IH]; [reflexivity |].
      cbn [flat_map]. rewrite IH. reflexivity. }
    rewrite Hnil. reflexivity.
Qed.

End OutputFacts.

(** On sorted data, a sample at or before the target is not after the
    sample the scan keeps. *)
Lemma roll_scan_keeps_latest (data : list RollSample) (target_secs : Q)
    (prev : option RollSample) (r : RollSample) :
  time_sorted data -> In r data -> secs r <= target_secs ->
  exists p,
    fst (roll_scan data target_secs prev None) = Some p /\ secs r <= secs p.
Proof.
  intros Hs. apply Sorted_StronglySorted in Hs;
    [| intros x y z Hxy Hyz; lra].
  revert prev. induction Hs as [| r0 rest Hs IH Hall]; intros prev Hin Hle.
  - destruct Hin.
  - cbn [roll_scan]. destruct (secs r0 <=? target_secs) eqn:E.
    + apply leb_true in E. destruct Hin as [<- | Hin].
      * pose proof (roll_scan_bracket rest target_secs (Some r0)) as Hb.
        destruct (roll_scan rest target_secs (Some r0) None) as [p n].
        destruct Hb as [[-> | (p' & -> & Hin' & _)] _].
        -- exists r0. split; [reflexivity | lra].
        -- exists p'. split; [reflexivity |].
           rewrite Forall_forall in Hall. apply Hall. assumption.
      * apply IH; assumption.
    + apply leb_false in E. exfalso. destruct Hin as [<- | Hin]; [lra |].
      rewrite Forall_forall in Hall. specialize (Hall r Hin). cbv beta in Hall.
      lra.
Qed.

(** X30: on time-sorted data, at the time of a recorded sample
    [interpolate_roll] returns the roll of a sample recorded at that time,
    not an interpolated value. *)
Theorem interpolate_roll_at_sample (data : list RollSample) (r : RollSample) :
  time_sorted data -> In r data ->
  exists r', In r' data /\ secs r' == secs r /\
             interpolate_roll data (secs r) = Some (roll r').
Proof.
  intros Hs Hin.
  destruct (roll_scan_keeps_latest data (secs r) None r Hs Hin) as (p & Ep & Hp);
    [lra |].
  pose proof (roll_scan_bracket data (secs r) None) as Hb.
  destruct data as [| first rest]; [destruct Hin |].
  unfold interpolate_roll.
  destruct (roll_scan (first :: rest) (secs r) None None) as [p' n].
  cbn [fst] in Ep. subst p'.
  destruct Hb as [[Hb | (p' & [= <-] & Hinp & Hle)] _]; [discriminate |].
  exists p. split; [assumption |]. split; [lra |].
  destruct n as [n |]; [| reflexivity].
  destruct (Qeq_dec (secs p) (secs r)) as [_ | Hne]; [reflexivity |].
  exfalso. apply Hne. lra.
Qed.

Lemma interpolate_roll_at_sample_witness :
  let data := [ {| secs := 10; roll := -5 |}; {| secs := 12; roll := -9 |} ] in
  exists r', In r' data /\ secs r' == 12 /\
             interpolate_roll data 12 = Some (roll r').
Proof.
  apply (interpolate_roll_at_sample
           [ {| secs := 10; roll := -5 |}; {| secs := 12; roll := -9 |} ]
           {| secs := 12; roll := -9 |}).
  - repeat constructor; simpl; lra.
  - right. left. reflexivity.
Defined.
